(** * FlowCam processing pipeline (algae_lib/flowcam_utils.py)

    A shallow embedding of [FlowCamProcessor]: the validator, the cleaner,
    the enricher, the daily aggregator and the file pipeline, together with
    the part of the pandas data model they rely on.

    Conventions of the embedding.
    - A float64 value is an extended rational [num]: a finite rational, one
      of the two infinities, or NaN.  Arithmetic follows IEEE-754 for the
      special values (x/0, inf-inf, NaN propagation); binary rounding,
      overflow and the sign of zero are not represented.
    - A data frame is a list of column labels and a list of rows; every row
      carries its index label and a finite map from column label to cell, so
      a frame holds one column per label.
    - What pandas parses out of a string (to_datetime, to_numeric) and the
      square root of the float unit are parameters of the development
      ([Coercers], [Sqrt]); every theorem holds for all of them.
    - Coercion is cell by cell: the parser stands for the one pandas
      settles on for the column.  A cell is text, a number, a timestamp or
      NaT, as read_csv and the stages themselves produce them; other Python
      objects in a column are outside the embedding.
    - An exception is [None] (or [Raised] in the validator); the handlers
      of the source are the [default] around each body.  The only exceptions
      the embedded operations raise are the KeyError of a missing column,
      the AttributeError of [.dt] on a column that is not a datetime column,
      and the TypeError of arithmetic or ordering on a column of mixed or
      non-numeric cells.
    - Logging is left out. *)

From Stdlib Require Import ZArith QArith Qround Qabs Lia Lqa Ascii String.
From stdpp Require Import base option list gmap strings sorting pretty.

Local Open Scope Z_scope.

(* ===================================================================== *)
(** ** float64 values *)
(* ===================================================================== *)

Module Float.

Inductive num : Type :=
| Fin (q : Q)
| PInf
| NInf
| NaN.

Definition isnan (x : num) : bool :=
  match x with NaN => true | _ => false end.

(** IEEE comparisons: every comparison with NaN is false. *)
Definition leb (x y : num) : bool :=
  match x, y with
  | NaN, _ | _, NaN => false
  | NInf, _ => true
  | _, PInf => true
  | Fin a, Fin b => Qle_bool a b
  | _, _ => false
  end.

Definition ltb (x y : num) : bool :=
  match x, y with
  | NaN, _ | _, NaN => false
  | PInf, _ => false
  | _, NInf => false
  | Fin a, Fin b => negb (Qle_bool b a)
  | _, _ => true
  end.

Definition geb (x y : num) : bool := leb y x.
Definition gtb (x y : num) : bool := ltb y x.

Definition eqb (x y : num) : bool :=
  match x, y with
  | Fin a, Fin b => Qeq_bool a b
  | PInf, PInf | NInf, NInf => true
  | _, _ => false
  end.

Definition add (x y : num) : num :=
  match x, y with
  | NaN, _ | _, NaN => NaN
  | Fin a, Fin b => Fin (Qred (a + b))
  | PInf, NInf | NInf, PInf => NaN
  | PInf, _ | _, PInf => PInf
  | NInf, _ | _, NInf => NInf
  end.

Definition sub (x y : num) : num :=
  match x, y with
  | NaN, _ | _, NaN => NaN
  | Fin a, Fin b => Fin (Qred (a - b))
  | PInf, PInf | NInf, NInf => NaN
  | PInf, _ | _, NInf => PInf
  | NInf, _ | _, PInf => NInf
  end.

(** Sign of a finite value: [Gt] positive, [Eq] zero, [Lt] negative. *)
Definition Qsign (a : Q) : comparison := (Qnum a ?= 0)%Z.

Definition mul (x y : num) : num :=
  match x, y with
  | NaN, _ | _, NaN => NaN
  | Fin a, Fin b => Fin (Qred (a * b))
  | Fin a, PInf | PInf, Fin a =>
      match Qsign a with Gt => PInf | Eq => NaN | Lt => NInf end
  | Fin a, NInf | NInf, Fin a =>
      match Qsign a with Gt => NInf | Eq => NaN | Lt => PInf end
  | PInf, PInf | NInf, NInf => PInf
  | PInf, NInf | NInf, PInf => NInf
  end.

(** Division; a finite value over zero is an infinity of the sign of the
    numerator, and 0/0 is NaN. *)
Definition div (x y : num) : num :=
  match x, y with
  | NaN, _ | _, NaN => NaN
  | Fin a, Fin b =>
      match Qsign b with
      | Eq => match Qsign a with Gt => PInf | Eq => NaN | Lt => NInf end
      | _ => Fin (Qred (a / b))
      end
  | Fin _, _ => Fin 0
  | _, PInf | _, NInf => NaN
  | PInf, Fin b => match Qsign b with Lt => NInf | _ => PInf end
  | NInf, Fin b => match Qsign b with Lt => PInf | _ => NInf end
  end.

Definition of_Z (z : Z) : num := Fin (inject_Z z).
Definition of_nat (n : nat) : num := Fin (inject_Z (Z.of_nat n)).

(** numpy's [around(x, decimals)]: scale, round half to even, scale back. *)
Definition round_half_even (q : Q) : Z :=
  let f := Qfloor q in
  let r := (q - inject_Z f)%Q in
  match (r ?= 1 # 2)%Q with
  | Lt => f
  | Gt => f + 1
  | Eq => if Z.even f then f else f + 1
  end.

Definition Qround_to (decimals : nat) (q : Q) : Q :=
  let scale := inject_Z (10 ^ Z.of_nat decimals) in
  Qred (inject_Z (round_half_even (q * scale)) / scale).

Definition round (decimals : nat) (x : num) : num :=
  match x with
  | Fin q => Fin (Qround_to decimals q)
  | _ => x
  end.

End Float.

Import Float.

(** ** The statistics of the specification, on the rationals *)

Module Exact.

Definition Qsum (l : list Q) : Q := foldr Qplus 0%Q l.

Definition Qmean (l : list Q) : Q :=
  (Qsum l / inject_Z (Z.of_nat (length l)))%Q.

(** Bessel-corrected sample variance: the squared deviations from the
    mean, summed, over [count - 1]. *)
Definition bessel_variance (l : list Q) : Q :=
  (Qsum ((λ q, (q - Qmean l) * (q - Qmean l)) <$> l)
   / inject_Z (Z.of_nat (length l) - 1))%Q.

(** [r] is [q] rounded to [decimals] fractional digits, half to even: [r]
    is a multiple [n] of the unit [10^-decimals], no multiple is nearer to
    [q], and of two nearest multiples it is the even one. *)
Definition rounds_half_even (decimals : nat) (q r : Q) : Prop :=
  let scale := inject_Z (10 ^ Z.of_nat decimals) in
  ∃ n : Z,
    (r == inject_Z n / scale)%Q
    ∧ (- (1 # 2) <= q * scale - inject_Z n <= 1 # 2)%Q
    ∧ ((q * scale - inject_Z n == 1 # 2
        ∨ q * scale - inject_Z n == - (1 # 2))%Q → Z.even n = true).

End Exact.

(** The square root of the float unit, on the rationals.  It is never
    negative. *)
Class Sqrt : Type := {
  fsqrt : Q → Q;
  fsqrt_nonneg : ∀ q, (0 <= fsqrt q)%Q
}.

(** ** Reductions of a series (mean, min, max, std) *)

Module Stats.

Definition sum (l : list num) : num := foldr add (Fin 0) l.

Definition mean (l : list num) : num :=
  match l with
  | [] => NaN
  | _ => div (sum l) (of_nat (length l))
  end.

Definition min (l : list num) : num :=
  match l with
  | [] => NaN
  | x :: l' => foldl (λ m y, if ltb y m then y else m) x l'
  end.

Definition max (l : list num) : num :=
  match l with
  | [] => NaN
  | x :: l' => foldl (λ m y, if ltb m y then y else m) x l'
  end.

Definition square (x : num) : num := mul x x.

(** Variance with [ddof] delta degrees of freedom: the squared deviations
    from the mean, summed and divided by [n - ddof]; NaN when there are not
    more than [ddof] values. *)
Definition var (ddof : nat) (l : list num) : num :=
  let n := length l in
  if (n <=? ddof)%nat then NaN
  else
    let m := mean l in
    div (sum ((λ x, square (sub x m)) <$> l)) (of_nat (n - ddof)).

Definition sqrt `{Sqrt} (x : num) : num :=
  match x with
  | Fin q => if Qle_bool 0 q then Fin (fsqrt q) else NaN
  | PInf => PInf
  | _ => NaN
  end.

(** [std()] of pandas: the sample standard deviation, ddof = 1. *)
Definition std `{Sqrt} (l : list num) : num := sqrt (var 1 l).

End Stats.

(* ===================================================================== *)
(** ** Data frames *)
(* ===================================================================== *)

Module Frame.

(** A cell of a frame: text, a float64 (NaN included), a timestamp in
    nanoseconds since the epoch, or the missing timestamp NaT. *)
Inductive cell : Type :=
| VStr (s : string)
| VNum (x : num)
| VTime (t : Z)
| VNaT.

(** [Series.isna]: NaN and NaT are missing; an infinity is not. *)
Definition isna (c : cell) : bool :=
  match c with
  | VNum NaN | VNaT => true
  | _ => false
  end.

Definition notna (c : cell) : bool := negb (isna c).

Record Row : Type := mkRow { idx : Z; cells : gmap string cell }.

Record DataFrame : Type := mkFrame { columns : list string; rows : list Row }.

(** [pd.DataFrame()] *)
Definition empty_frame : DataFrame := mkFrame [] [].

(** The cell of a row under a label; a label the row lacks reads as NaN. *)
Definition get (c : string) (r : Row) : cell :=
  default (VNum NaN) (cells r !! c).

Definition set (c : string) (v : cell) (r : Row) : Row :=
  mkRow (idx r) (<[c := v]> (cells r)).

Definition has_column (c : string) (df : DataFrame) : bool :=
  bool_decide (c ∈ columns df).

Definition has_columns (cs : list string) (df : DataFrame) : bool :=
  forallb (λ c, has_column c df) cs.

Definition add_label (c : string) (cs : list string) : list string :=
  if bool_decide (c ∈ cs) then cs else cs ++ [c].

(** [df[c]]: the column as a series; [None] is the KeyError of a label
    that is not a column. *)
Definition column (c : string) (df : DataFrame) : option (list cell) :=
  if has_column c df then Some (get c <$> rows df) else None.

(** [df[c] = series], the series aligned with the rows by position. *)
Definition set_column (c : string) (vals : list cell) (df : DataFrame)
  : DataFrame :=
  mkFrame (add_label c (columns df))
          (zip_with (λ r v, set c v r) (rows df) vals).

(** [df[c] = f(df[c])] for an element-wise [f]. *)
Definition assign (c : string) (f : cell → cell) (df : DataFrame)
  : option DataFrame :=
  s ← column c df; Some (set_column c (f <$> s) df).

(** [df.dropna(subset=...)]: keep the rows with no missing cell under the
    labels of [subset]. *)
Definition dropna (subset : list string) (df : DataFrame)
  : option DataFrame :=
  if has_columns subset df
  then Some (mkFrame (columns df)
               (List.filter (λ r, forallb (λ c, notna (get c r)) subset)
                            (rows df)))
  else None.

(** [df[mask]] for a boolean mask computed row by row from the columns
    [uses]. *)
Definition select (uses : list string) (mask : Row → bool) (df : DataFrame)
  : option DataFrame :=
  if has_columns uses df
  then Some (mkFrame (columns df) (List.filter mask (rows df)))
  else None.

(** Element-wise comparison of a numeric column with a float. *)
Definition cell_geb (c : cell) (v : num) : bool :=
  match c with VNum x => geb x v | _ => false end.
Definition cell_leb (c : cell) (v : num) : bool :=
  match c with VNum x => leb x v | _ => false end.
Definition cell_ltb (c : cell) (v : num) : bool :=
  match c with VNum x => ltb x v | _ => false end.
Definition cell_gtb (c : cell) (v : num) : bool :=
  match c with VNum x => gtb x v | _ => false end.

(** *** sort_values *)

(** The order [sort_values] puts the cells of one column in: missing
    values last, numbers by value, text lexicographically, timestamps by
    instant.  (A column mixing the kinds is kept apart by kind; pandas
    raises on such a column.) *)
Definition kind_rank (c : cell) : Z :=
  match c with
  | VNum NaN | VNaT => 3
  | VNum _ => 0
  | VStr _ => 1
  | VTime _ => 2
  end.

Definition num_compare (x y : num) : comparison :=
  match x, y with
  | NaN, NaN => Eq
  | NaN, _ => Gt
  | _, NaN => Lt
  | Fin a, Fin b => (a ?= b)%Q
  | NInf, NInf | PInf, PInf => Eq
  | NInf, _ | _, PInf => Lt
  | _, NInf | PInf, _ => Gt
  end.

Definition cell_compare (a b : cell) : comparison :=
  if isna a || isna b then (kind_rank a ?= kind_rank b)
  else
    match a, b with
    | VNum x, VNum y => num_compare x y
    | VStr s, VStr t => String.compare s t
    | VTime s, VTime t => (s ?= t)
    | _, _ => (kind_rank a ?= kind_rank b)
    end.

(** Lexicographic comparison of two rows on the labels [by]. *)
Fixpoint row_compare (by_ : list string) (r1 r2 : Row) : comparison :=
  match by_ with
  | [] => Eq
  | c :: cs =>
      match cell_compare (get c r1) (get c r2) with
      | Eq => row_compare cs r1 r2
      | o => o
      end
  end.

Definition row_leb (by_ : list string) (r1 r2 : Row) : bool :=
  match row_compare by_ r1 r2 with Gt => false | _ => true end.

(** A stable sort: a row is placed before the first row that is not
    smaller, so rows that compare equal keep their order. *)
Fixpoint insert_sorted {A} (le : A → A → bool) (x : A) (l : list A) : list A :=
  match l with
  | [] => [x]
  | y :: l' => if le x y then x :: l else y :: insert_sorted le x l'
  end.

Fixpoint stable_sort {A} (le : A → A → bool) (l : list A) : list A :=
  match l with
  | [] => []
  | x :: l' => insert_sorted le x (stable_sort le l')
  end.

(** A column can be ordered when its cells that are not missing are all of
    one kind. *)
Definition homogeneous (s : list cell) : bool :=
  match List.filter notna s with
  | [] => true
  | c :: cs => forallb (λ d, kind_rank d =? kind_rank c) cs
  end.

(** [df.sort_values(by)] on several labels: ascending, stable, missing
    values last.  [None] is the KeyError of a label that is not a column or
    the TypeError of a column that cannot be ordered. *)
Definition sort_values (by_ : list string) (df : DataFrame)
  : option DataFrame :=
  if has_columns by_ df
     && forallb (λ c, homogeneous (get c <$> rows df)) by_
  then Some (mkFrame (columns df) (stable_sort (row_leb by_) (rows df)))
  else None.

(** *** Typed views of a column *)

(** [df[c].dt]: the timestamps of a datetime column ([None] for NaT); the
    accessor raises on a column that holds anything else. *)
Definition dt_accessor (c : string) (df : DataFrame)
  : option (list (option Z)) :=
  s ← column c df;
  mapM (λ v, match v with
             | VTime t => Some (Some t)
             | VNaT => Some None
             | _ => None
             end) s.

(** The floats of a numeric column; [None] when the column is missing or
    holds a cell that is not a number. *)
Definition numeric (c : string) (df : DataFrame) : option (list num) :=
  s ← column c df;
  mapM (λ v, match v with VNum x => Some x | _ => None end) s.

(** The float under a label, NaN when the cell is not a number. *)
Definition value (c : string) (r : Row) : num :=
  match get c r with VNum x => x | _ => NaN end.

(** *** groupby *)

Definition cell_eqb (a b : cell) : bool :=
  match a, b with
  | VNum x, VNum y => Float.eqb x y
  | VStr s, VStr t => String.eqb s t
  | VTime s, VTime t => (s =? t)
  | _, _ => false
  end.

(** Two rows are in the same group when they agree on every key; a row
    with a missing key is in no group (groupby's dropna=True). *)
Definition same_group (by_ : list string) (r1 r2 : Row) : bool :=
  forallb (λ c, cell_eqb (get c r1) (get c r2)) by_.

(** Walk the rows in order and compute a value for each row from the
    earlier rows of its group, the latest first. *)
Fixpoint group_scan {B} (by_ : list string) (f : list Row → Row → B)
    (before : list Row) (l : list Row) : list B :=
  match l with
  | [] => []
  | r :: l' =>
      f (List.filter (same_group by_ r) before) r
      :: group_scan by_ f (r :: before) l'
  end.

(** [groupby(by)[c].diff()] *)
Definition diff_in_group (c : string) (earlier : list Row) (r : Row) : num :=
  match earlier with
  | [] => NaN
  | p :: _ => sub (value c r) (value c p)
  end.

Definition groupby_diff (by_ : list string) (c : string) (df : DataFrame)
  : option (list num) :=
  if has_columns by_ df
  then _ ← numeric c df;
       Some (group_scan by_ (diff_in_group c) [] (rows df))
  else None.

(** [groupby(by)[c].pct_change()].  Missing values are first filled
    forward inside the group (pandas 2 default), then each value is divided
    by the value one row earlier in the group, minus one. *)
Definition ffill (c : string) (earlier : list Row) : num :=
  match List.find (λ p, negb (isnan (value c p))) earlier with
  | Some p => value c p
  | None => NaN
  end.

Definition pct_change_in_group (c : string) (earlier : list Row) (r : Row)
  : num :=
  match earlier with
  | [] => NaN
  | _ :: _ =>
      let shifted := ffill c earlier in
      let filled := if isnan (value c r) then shifted else value c r in
      sub (div filled shifted) (Fin 1)
  end.

Definition groupby_pct_change (by_ : list string) (c : string)
    (df : DataFrame) : option (list num) :=
  if has_columns by_ df
  then _ ← numeric c df;
       Some (group_scan by_ (pct_change_in_group c) [] (rows df))
  else None.

(** The same walk over the rows of a single group: each row with the rows
    before it, the latest first. *)
Fixpoint prefix_scan {B} (f : list Row → Row → B) (before : list Row)
    (s : list Row) : list B :=
  match s with
  | [] => []
  | r :: s' => f before r :: prefix_scan f (r :: before) s'
  end.

(** The rows of the group of [k], in the order of the frame. *)
Definition series (by_ : list string) (k : Row) (l : list Row) : list Row :=
  List.filter (same_group by_ k) l.

(** The first row of every group, in order of first appearance. *)
Fixpoint group_heads (by_ : list string) (l : list Row) : list Row :=
  match l with
  | [] => []
  | r :: l' =>
      if same_group by_ r r
      then r :: List.filter (λ p, negb (same_group by_ r p)) (group_heads by_ l')
      else group_heads by_ l'
  end.

(** *** pd.cut *)

(** [bins.searchsorted(x, side='left')]: how many edges lie below [x]. *)
Definition searchsorted_left (bins : list Q) (x : num) : nat :=
  length (List.filter (λ b, ltb (Fin b) x) bins).

(** [pd.cut(x, bins, labels=labels, include_lowest=...)] for one value:
    the label of the right-closed interval that holds [x], none for a value
    outside the edges or a NaN. *)
Definition cut (bins : list Q) (labels : list string) (include_lowest : bool)
    (x : num) : option string :=
  if isnan x then None
  else
    let ids := searchsorted_left bins x in
    let ids :=
      if include_lowest && from_option (λ b, Float.eqb x (Fin b)) false (head bins)
      then 1%nat else ids in
    if (ids =? 0)%nat || (ids =? length bins)%nat then None
    else labels !! (ids - 1)%nat.

(** [df.reset_index(drop=True)]: the index becomes 0, 1, 2, ... *)
Definition relabel (l : list Row) : list Row :=
  imap (λ i r, mkRow (Z.of_nat i) (cells r)) l.

Definition reset_index (df : DataFrame) : DataFrame :=
  mkFrame (columns df) (relabel (rows df)).

End Frame.

Import Frame.

(* ===================================================================== *)
(** ** Calendar fields of a timestamp *)
(* ===================================================================== *)

Module Calendar.

Definition ns_per_day : Z := 86400 * 1000000000.

(** Days since 1970-01-01 of a timestamp in nanoseconds. *)
Definition days_of_ns (t : Z) : Z := t / ns_per_day.

(** Proleptic Gregorian date of a day count, and back. *)
Definition civil_from_days (z : Z) : Z * Z * Z :=
  let z := z + 719468 in
  let era := z / 146097 in
  let doe := z - era * 146097 in
  let yoe := (doe - doe / 1460 + doe / 36524 - doe / 146096) / 365 in
  let y := yoe + era * 400 in
  let doy := doe - (365 * yoe + yoe / 4 - yoe / 100) in
  let mp := (5 * doy + 2) / 153 in
  let d := doy - (153 * mp + 2) / 5 + 1 in
  let m := if mp <? 10 then mp + 3 else mp - 9 in
  (if m <=? 2 then y + 1 else y, m, d).

Definition days_from_civil (y m d : Z) : Z :=
  let y := if m <=? 2 then y - 1 else y in
  let era := y / 400 in
  let yoe := y - era * 400 in
  let doy := (153 * (if 2 <? m then m - 3 else m + 9) + 2) / 5 + d - 1 in
  let doe := yoe * 365 + yoe / 4 - yoe / 100 + doy in
  era * 146097 + doe - 719468.

Definition year (t : Z) : Z := (civil_from_days (days_of_ns t)).1.1.
Definition month (t : Z) : Z := (civil_from_days (days_of_ns t)).1.2.
Definition day (t : Z) : Z := (civil_from_days (days_of_ns t)).2.

(** Monday is 0 and Sunday is 6; 1970-01-01 was a Thursday. *)
Definition dayofweek (t : Z) : Z := (days_of_ns t + 3) mod 7.

(** Number of ISO-8601 weeks of a year. *)
Definition iso_weeks_in_year (y : Z) : Z :=
  let p y := (y + y / 4 - y / 100 + y / 400) mod 7 in
  if (p y =? 4) || (p (y - 1) =? 3) then 53 else 52.

(** ISO-8601 week number. *)
Definition isoweek (t : Z) : Z :=
  let y := year t in
  let doy := days_of_ns t - days_from_civil y 1 1 + 1 in
  let w := (doy - (dayofweek t + 1) + 10) / 7 in
  if w <? 1 then iso_weeks_in_year (y - 1)
  else if iso_weeks_in_year y <? w then 1
  else w.

End Calendar.

(* ===================================================================== *)
(** ** FlowCamProcessor *)
(* ===================================================================== *)

(** What [pd.to_datetime] and [pd.to_numeric] (both with errors='coerce')
    make of a value that is not yet of the target type: the timestamp read
    out of a text or a number ([None] when there is none, which coerces to
    NaT), the number read out of a text ([None] coerces to NaN), and the
    number a timestamp (or NaT, [None]) is turned into. *)
Class Coercers : Type := {
  str_to_datetime : string → option Z;
  num_to_datetime : num → option Z;
  str_to_numeric : string → option num;
  time_to_numeric : option Z → num
}.

Module FlowCam.

(** [FlowCamProcessor.__init__] *)
Definition required_columns : list string :=
  ["date"; "tpu"; "reactor"; "algae_density"]%string.
Definition valid_tpu_range : num * num := (Fin 1, Fin 10).
Definition valid_reactor_range : num * num := (Fin 1, Fin 20).
Definition valid_density_range : num * num := (Fin 0, Fin 3).

Record ValidationReport : Type := mkReport {
  is_valid : bool;
  errors : list string;
  warnings : list string;
  row_count : nat;
  column_count : nat
}.

(** The validator works on the caller's frame and on the report it is
    building; both are the state of the computation.  A step returns a
    value or raises an exception, of which the text is kept, and an
    exception leaves the state as it was when it was raised. *)
Record VState : Type := mkVState {
  frame : DataFrame;
  report : ValidationReport
}.

Inductive outcome (A : Type) : Type :=
| Returned (a : A)
| Raised (e : string).
Arguments Returned {A} a.
Arguments Raised {A} e.

Definition V (A : Type) : Type := VState → outcome A * VState.

#[local] Instance V_ret : MRet V := λ A a st, (Returned a, st).
#[local] Instance V_bind : MBind V := λ A B f m st,
  match m st with
  | (Returned a, st') => f a st'
  | (Raised e, st') => (Raised e, st')
  end.

Definition get_frame : V DataFrame := λ st, (Returned (frame st), st).

(** [df[c] = f(df[c])] on the caller's frame.  A label that is not a
    column raises KeyError, whose text is the label in quotes. *)
Definition assign_in_place (c : string) (f : cell → cell) : V unit :=
  λ st, match assign c f (frame st) with
        | Some df => (Returned (), mkVState df (report st))
        | None => (Raised ("'" +:+ c +:+ "'"), st)
        end.

Definition add_warning (w : string) : V unit :=
  λ st, let r := report st in
        (Returned (), mkVState (frame st)
           (mkReport (is_valid r) (errors r) (warnings r ++ [w])
                     (row_count r) (column_count r))).

Definition add_error (e : string) (r : ValidationReport) : ValidationReport :=
  mkReport false (errors r ++ [e]) (warnings r) (row_count r) (column_count r).

(** [series.sum()] of a boolean series. *)
Definition count_rows (p : Row → bool) (df : DataFrame) : nat :=
  length (List.filter p (rows df)).

Definition warn_if_positive (n : nat) (text : string) : V unit :=
  if (0 <? n)%nat then add_warning (pretty n +:+ text) else mret ().

(** The report after [warn_if_positive n text]. *)
Definition push_warning (n : nat) (text : string) (r : ValidationReport)
  : ValidationReport :=
  if (0 <? n)%nat
  then mkReport (is_valid r) (errors r) (warnings r ++ [pretty n +:+ text])
                (row_count r) (column_count r)
  else r.

Definition out_of_range (c : string) (range : num * num) (r : Row) : bool :=
  cell_ltb (get c r) range.1 || cell_gtb (get c r) range.2.

Definition in_range (c : string) (range : num * num) (r : Row) : bool :=
  cell_geb (get c r) range.1 && cell_leb (get c r) range.2.

(** The text of a Python set of labels, in the order [elements] lists it
    (the order Python prints a set in is not determined either). *)
Definition set_repr (s : gset string) : string :=
  "{" +:+ String.concat ", " ((λ c, "'" +:+ c +:+ "'") <$> elements s) +:+ "}".

Definition missing_columns (df : DataFrame) : gset string :=
  list_to_set required_columns ∖ list_to_set (columns df).

Section WithCoercers.
Context `{Coercers}.

(** [pd.to_datetime(series, errors='coerce')], cell by cell. *)
Definition to_datetime (c : cell) : cell :=
  match c with
  | VTime t => VTime t
  | VNaT => VNaT
  | VStr s => from_option VTime VNaT (str_to_datetime s)
  | VNum x => from_option VTime VNaT (num_to_datetime x)
  end.

(** [pd.to_numeric(series, errors='coerce')], cell by cell. *)
Definition to_numeric (c : cell) : cell :=
  match c with
  | VNum x => VNum x
  | VStr s => VNum (default NaN (str_to_numeric s))
  | VTime t => VNum (time_to_numeric (Some t))
  | VNaT => VNum (time_to_numeric None)
  end.

(** The body of the [try] block of [validate_flowcam_data]. *)
Definition validate_checks : V unit :=
  (* Validate date column *)
  _ ← assign_in_place "date" to_datetime;
  df ← get_frame;
  _ ← warn_if_positive (count_rows (λ r, isna (get "date" r)) df)
        " invalid dates found";
  (* Validate TPU column *)
  _ ← assign_in_place "tpu" to_numeric;
  df ← get_frame;
  _ ← warn_if_positive (count_rows (λ r, isna (get "tpu" r)) df)
        " invalid TPU values found";
  _ ← warn_if_positive (count_rows (out_of_range "tpu" valid_tpu_range) df)
        " TPU values out of range";
  (* Validate reactor column *)
  _ ← assign_in_place "reactor" to_numeric;
  df ← get_frame;
  _ ← warn_if_positive (count_rows (λ r, isna (get "reactor" r)) df)
        " invalid reactor values found";
  _ ← warn_if_positive
        (count_rows (out_of_range "reactor" valid_reactor_range) df)
        " reactor values out of range";
  (* Validate algae_density column *)
  _ ← assign_in_place "algae_density" to_numeric;
  df ← get_frame;
  _ ← warn_if_positive (count_rows (λ r, isna (get "algae_density" r)) df)
        " invalid density values found";
  warn_if_positive
    (count_rows (out_of_range "algae_density" valid_density_range) df)
    " density values out of range".

(** [validate_flowcam_data]: the report, and the caller's frame as the
    call leaves it. *)
Definition validate_flowcam_data (df : DataFrame)
  : ValidationReport * DataFrame :=
  let validation_results :=
    mkReport true [] [] (length (rows df)) (length (columns df)) in
  let missing := missing_columns df in
  let validation_results :=
    if bool_decide (missing = ∅) then validation_results
    else add_error ("Missing required columns: " +:+ set_repr missing)
                   validation_results in
  if negb (is_valid validation_results) then (validation_results, df)
  else
    match validate_checks (mkVState df validation_results) with
    | (Returned _, st) => (report st, frame st)
    | (Raised e, st) =>
        (add_error ("Data validation error: " +:+ e) (report st), frame st)
    end.

(** The body of the [try] block of [clean_flowcam_data]; [None] when an
    exception is raised. *)
Definition clean_steps (df : DataFrame) : option DataFrame :=
  (* Create a copy to avoid modifying original *)
  let cleaned_df := df in
  (* Convert date column *)
  cleaned_df ← assign "date" to_datetime cleaned_df;
  (* Convert numeric columns *)
  cleaned_df ← assign "tpu" to_numeric cleaned_df;
  cleaned_df ← assign "reactor" to_numeric cleaned_df;
  cleaned_df ← assign "algae_density" to_numeric cleaned_df;
  (* Remove rows with invalid data *)
  cleaned_df ← dropna ["date"; "tpu"; "reactor"; "algae_density"] cleaned_df;
  (* Filter out-of-range values *)
  cleaned_df ← select ["tpu"; "reactor"; "algae_density"]
    (λ r, in_range "tpu" valid_tpu_range r
          && in_range "reactor" valid_reactor_range r
          && in_range "algae_density" valid_density_range r)
    cleaned_df;
  (* Sort by date and TPU *)
  cleaned_df ← sort_values ["date"; "tpu"; "reactor"] cleaned_df;
  (* Reset index *)
  Some (reset_index cleaned_df).

(** [clean_flowcam_data]: on an exception the frame it was given is
    returned. *)
Definition clean_flowcam_data (df : DataFrame) : DataFrame :=
  default df (clean_steps df).

(** What the four coercions of the cleaner (and of the validator) make of
    one row. *)
Definition coerce_row (r : Row) : Row :=
  set "algae_density" (to_numeric (get "algae_density" r))
    (set "reactor" (to_numeric (get "reactor" r))
       (set "tpu" (to_numeric (get "tpu" r))
          (set "date" (to_datetime (get "date" r)) r))).

Definition coerce_frame (df : DataFrame) : DataFrame :=
  mkFrame (columns df) (coerce_row <$> rows df).

End WithCoercers.

(** The rows [dropna] keeps, and the rows the range filter keeps. *)
Definition complete_row (r : Row) : bool :=
  forallb (λ c, notna (get c r)) ["date"; "tpu"; "reactor"; "algae_density"].

Definition in_ranges (r : Row) : bool :=
  in_range "tpu" valid_tpu_range r
  && in_range "reactor" valid_reactor_range r
  && in_range "algae_density" valid_density_range r.

(** The rows of a frame that the cleaner retains: those whose four
    required fields, once coerced, are present and in range. *)
Definition retained `{Coercers} (r : Row) : bool :=
  complete_row (coerce_row r) && in_ranges (coerce_row r).

(** The rows of the cleaned frame, from the rows of the frame given. *)
Definition cleaned_rows `{Coercers} (l : list Row) : list Row :=
  relabel
    (stable_sort (row_leb ["date"; "tpu"; "reactor"])
       (List.filter in_ranges (List.filter complete_row (coerce_row <$> l)))).

(** The invariants of a cleaned row: a timestamp for the date, and the unit,
    the sub-unit and the measurement finite numbers within their ranges. *)
Definition measurement_record (r : Row) : Prop :=
  (∃ t, cells r !! "date" = Some (VTime t)) ∧
  (∃ q, cells r !! "tpu" = Some (VNum (Fin q)) ∧ (1 <= q <= 10)%Q) ∧
  (∃ q, cells r !! "reactor" = Some (VNum (Fin q)) ∧ (1 <= q <= 20)%Q) ∧
  (∃ q, cells r !! "algae_density" = Some (VNum (Fin q)) ∧ (0 <= q <= 3)%Q).

(** A frame of measurement records: the four required columns are there
    and every row satisfies the invariants. *)
Definition typed_frame (df : DataFrame) : Prop :=
  has_columns required_columns df = true
  ∧ Forall measurement_record (rows df).

(** The timestamp of a row, none for NaT. *)
Definition date_of (r : Row) : option Z :=
  match get "date" r with VTime t => Some t | _ => None end.

(** The measurement of a row as a rational. *)
Definition density_Q (r : Row) : Q :=
  match value "algae_density" r with Fin q => q | _ => 0%Q end.

(** A frame is structurally valid when every required column is one of
    its columns. *)
Definition structurally_valid (df : DataFrame) : Prop :=
  has_columns required_columns df = true.

(** One calendar column: [enhanced_df[c] = enhanced_df['date'].dt.<field>].
    The field of NaT is missing. *)
Definition assign_dt_field (c : string) (field : Z → Z) (df : DataFrame)
  : option DataFrame :=
  dt ← dt_accessor "date" df;
  Some (set_column c
          ((λ t, VNum (from_option (λ t, of_Z (field t)) NaN t)) <$> dt) df).

Definition density_bins : list Q := [0; 1 # 2; 1; 3 # 2; 2; 3]%Q.
Definition density_labels : list string :=
  ["Very Low"; "Low"; "Medium"; "High"; "Very High"]%string.

(** The density category of one measurement. *)
Definition density_category (x : num) : option string :=
  cut density_bins density_labels true x.

Definition category_cell (x : num) : cell :=
  from_option VStr (VNum NaN) (density_category x).

(** The body of the [try] block of [add_derived_columns]. *)
Definition add_derived_columns_steps (df : DataFrame) : option DataFrame :=
  let enhanced_df := df in
  (* Add date components *)
  enhanced_df ← assign_dt_field "year" Calendar.year enhanced_df;
  enhanced_df ← assign_dt_field "month" Calendar.month enhanced_df;
  enhanced_df ← assign_dt_field "day" Calendar.day enhanced_df;
  enhanced_df ← assign_dt_field "day_of_week" Calendar.dayofweek enhanced_df;
  enhanced_df ← assign_dt_field "week_of_year" Calendar.isoweek enhanced_df;
  (* Add density categories *)
  density ← numeric "algae_density" enhanced_df;
  let enhanced_df :=
    set_column "density_category" (category_cell <$> density) enhanced_df in
  (* Add growth indicators (if multiple dates per TPU/reactor) *)
  enhanced_df ← sort_values ["tpu"; "reactor"; "date"] enhanced_df;
  change ← groupby_diff ["tpu"; "reactor"] "algae_density" enhanced_df;
  let enhanced_df :=
    set_column "density_change" (VNum <$> change) enhanced_df in
  pct ← groupby_pct_change ["tpu"; "reactor"] "algae_density" enhanced_df;
  Some (set_column "density_change_pct"
          ((λ x, VNum (mul x (Fin 100))) <$> pct) enhanced_df).

(** The rows of the enriched frame, from the rows in series order: the
    two growth indicators attached. *)
Definition with_growth_indicators (sorted : list Row) : list Row :=
  let with_change :=
    zip_with (λ r v, set "density_change" v r) sorted
      (VNum <$> group_scan ["tpu"; "reactor"]
                  (diff_in_group "algae_density") [] sorted) in
  zip_with (λ r v, set "density_change_pct" v r) with_change
    ((λ x, VNum (mul x (Fin 100)))
       <$> group_scan ["tpu"; "reactor"]
             (pct_change_in_group "algae_density") [] with_change).

(** [add_derived_columns]: on an exception the frame it was given is
    returned. *)
Definition add_derived_columns (df : DataFrame) : DataFrame :=
  default df (add_derived_columns_steps df).

(** The keys of [calculate_daily_aggregates]. *)
Definition group_keys : list string := ["date"; "tpu"; "reactor"]%string.

Section WithSqrt.
Context `{Sqrt}.

(** The row of one group: its key, then mean, min, max, std and count of
    the measurements of the group that are not missing, the four floats
    rounded to 4 decimals (the count is an integer, which [round] leaves as
    it is), under the names the columns are given in the end. *)
Definition aggregate_group (key : Row) (members : list Row) : Row :=
  let vals :=
    List.filter (λ x, negb (isnan x)) (value "algae_density" <$> members) in
  mkRow 0
    (<["measurement_count" := VNum (of_nat (length vals))]>
     (<["std_density" := VNum (round 4 (Stats.std vals))]>
     (<["max_density" := VNum (round 4 (Stats.max vals))]>
     (<["min_density" := VNum (round 4 (Stats.min vals))]>
     (<["avg_density" := VNum (round 4 (Stats.mean vals))]>
     (<["reactor" := get "reactor" key]>
     (<["tpu" := get "tpu" key]>
     (<["date" := get "date" key]> ∅)))))))).

Definition group_row (l : list Row) (k : Row) : Row :=
  aggregate_group k (List.filter (same_group group_keys k) l).

(** The body of the [try] block of [calculate_daily_aggregates]: one row
    per group, the groups in ascending order of their key. *)
Definition calculate_daily_aggregates_steps (df : DataFrame)
  : option DataFrame :=
  if has_columns group_keys df
  then
    _ ← numeric "algae_density" df;
    let keys :=
      stable_sort (row_leb group_keys) (group_heads group_keys (rows df)) in
    let daily_agg := group_row (rows df) <$> keys in
    Some (reset_index
            (mkFrame ["date"; "tpu"; "reactor"; "avg_density"; "min_density";
                      "max_density"; "std_density"; "measurement_count"]
                     daily_agg))
  else None.

(** [calculate_daily_aggregates]: on an exception an empty frame is
    returned. *)
Definition calculate_daily_aggregates (df : DataFrame) : DataFrame :=
  default empty_frame (calculate_daily_aggregates_steps df).

End WithSqrt.

Section Pipeline.
Context `{Coercers}.

(** [process_flowcam_file], from the result of [read_flowcam_csv] on
    ([None] when the file could not be read).  The validator is handed the
    frame that was read, and the cleaner receives that same frame as the
    validator leaves it. *)
Definition process_flowcam_file (read : option DataFrame)
  : option DataFrame :=
  match read with
  | None => None
  | Some df =>
      let '(validation, df) := validate_flowcam_data df in
      if negb (is_valid validation) then None
      else
        let cleaned_df := clean_flowcam_data df in
        let enhanced_df := add_derived_columns cleaned_df in
        Some enhanced_df
  end.

End Pipeline.

End FlowCam.

(* ===================================================================== *)
(** ** One choice of the parameters, to run the pipeline on examples *)
(* ===================================================================== *)

Module Demo.

Definition digit (a : ascii) : option Z :=
  let n := Z.of_N (Ascii.N_of_ascii a) in
  if (48 <=? n) && (n <=? 57) then Some (n - 48) else None.

(** The value of a string of decimal digits, after the digits [acc]. *)
Fixpoint digits (acc : Z) (s : string) : option Z :=
  match s with
  | EmptyString => Some acc
  | String a s' => d ← digit a; digits (10 * acc + d) s'
  end.

Definition unsigned (s : string) : option Z :=
  match s with
  | EmptyString => None
  | _ => digits 0 s
  end.

(** Split at the first occurrence of a character. *)
Fixpoint split_at (sep : ascii) (s : string) : string * option string :=
  match s with
  | EmptyString => (EmptyString, None)
  | String a s' =>
      if Ascii.eqb a sep then (EmptyString, Some s')
      else let '(l, r) := split_at sep s' in (String a l, r)
  end.

(** Plain decimals: an optional minus sign, digits, and optionally a point
    and more digits. *)
Definition unsigned_decimal (s : string) : option Q :=
  match split_at "." s with
  | (i, None) => inject_Z <$> unsigned i
  | (i, Some f) =>
      n ← unsigned i;
      m ← unsigned f;
      let scale := 10 ^ Z.of_nat (String.length f) in
      Some (Qred (Qmake (n * scale + m) (Z.to_pos scale)))
  end.

Definition decimal (s : string) : option num :=
  match s with
  | String "-" s' => (λ q, Fin (Qred (- q))) <$> unsigned_decimal s'
  | _ => Fin <$> unsigned_decimal s
  end.

(** Dates written YYYY-MM-DD, at midnight. *)
Definition iso_date (s : string) : option Z :=
  match split_at "-" s with
  | (ys, Some rest) =>
      match split_at "-" rest with
      | (ms, Some ds) =>
          y ← unsigned ys; m ← unsigned ms; d ← unsigned ds;
          let days := Calendar.days_from_civil y m d in
          if bool_decide (Calendar.civil_from_days days = (y, m, d))
             && (String.length ys =? 4)%nat
          then Some (days * Calendar.ns_per_day) else None
      | _ => None
      end
  | _ => None
  end.

#[export] Instance coercers : Coercers := {|
  str_to_datetime := iso_date;
  num_to_datetime x :=
    match x with Fin q => Some (Qfloor q) | _ => None end;
  str_to_numeric := decimal;
  time_to_numeric t := from_option of_Z NaN t
|}.

(** The root of [q] to eight decimals, rounded down. *)
Definition sqrt8 (q : Q) : Q :=
  Qred (Qmake (Z.sqrt (Qfloor (q * inject_Z (10 ^ 16)))) (10 ^ 8)).

#[export] Instance sqrt : Sqrt.
Proof.
  refine {| fsqrt := sqrt8 |}.
  intros q. unfold sqrt8. rewrite Qred_correct. unfold Qle.
  cbn [Qnum Qden]. rewrite Z.mul_0_l, Z.mul_1_r. apply Z.sqrt_nonneg.
Defined.

(** A frame from rows of cells for the four required columns. *)
Definition record (i : Z) (date tpu reactor density : cell) : Row :=
  mkRow i (<["algae_density" := density]>
          (<["reactor" := reactor]>
          (<["tpu" := tpu]>
          (<["date" := date]> ∅)))).

Definition flowcam_frame (l : list (cell * cell * cell * cell)) : DataFrame :=
  mkFrame FlowCam.required_columns
    (imap (λ i '(d, t, r, a), record (Z.of_nat i) d t r a) l).

(** Two readings of one reactor on consecutive days, the first of them
    zero. *)
Definition zero_then_one : DataFrame :=
  flowcam_frame
    [(VTime 0, VNum (Fin 1), VNum (Fin 1), VNum (Fin 0));
     (VTime Calendar.ns_per_day, VNum (Fin 1), VNum (Fin 1), VNum (Fin 1))].

(** Three readings of one reactor, two of them on the same day. *)
Definition three_readings : DataFrame :=
  flowcam_frame
    [(VStr "2024-01-01", VNum (Fin 1), VNum (Fin 1), VNum (Fin (6 # 5)));
     (VStr "2024-01-01", VNum (Fin 1), VNum (Fin 1), VNum (Fin (7 # 5)));
     (VStr "2024-01-02", VNum (Fin 1), VNum (Fin 1), VNum (Fin (8 # 5)))].

(** The frames of the unit tests of the repository
    (tests/unit/test_flowcam_utils.py). *)
Definition day (n : Z) : cell := VTime (n * Calendar.ns_per_day).

Definition test_valid : DataFrame :=
  flowcam_frame
    [(VStr "2024-01-01", VNum (Fin 1), VNum (Fin 1), VNum (Fin (6 # 5)));
     (VStr "2024-01-02", VNum (Fin 2), VNum (Fin 2), VNum (Fin (3 # 2)))].

Definition test_missing_columns : DataFrame :=
  mkFrame ["date"; "tpu"]
    [mkRow 0 (<["tpu" := VNum (Fin 1)]> (<["date" := VStr "2024-01-01"]> ∅))].

Definition test_invalid_values : DataFrame :=
  flowcam_frame
    [(VStr "2024-01-01", VNum (Fin 1), VNum (Fin 1), VNum (Fin (6 # 5)));
     (VStr "invalid-date", VNum (Fin 15), VNum (Fin 25), VNum (Fin 5))].

Definition test_clean : DataFrame :=
  flowcam_frame
    [(VStr "2024-01-01", VNum (Fin 1), VNum (Fin 1), VNum (Fin (6 # 5)));
     (VStr "invalid-date", VNum (Fin 2), VNum (Fin 2), VNum (Fin 5));
     (VStr "2024-01-03", VNum (Fin 3), VNum (Fin 3), VNum (Fin (3 # 2)))].

Definition test_derived : DataFrame :=
  flowcam_frame
    [(day 19723, VNum (Fin 1), VNum (Fin 1), VNum (Fin (6 # 5)));
     (day 19724, VNum (Fin 2), VNum (Fin 2), VNum (Fin (3 # 2)))].

Definition test_aggregates : DataFrame :=
  flowcam_frame
    [(day 19723, VNum (Fin 1), VNum (Fin 1), VNum (Fin (6 # 5)));
     (day 19723, VNum (Fin 1), VNum (Fin 1), VNum (Fin (7 # 5)));
     (day 19724, VNum (Fin 1), VNum (Fin 1), VNum (Fin (8 # 5)))].

(** One reading, as [read_csv] delivers it: the date is text. *)
Definition one_reading : DataFrame :=
  flowcam_frame [(VStr "2024-01-01", VNum (Fin 1), VNum (Fin 1),
                  VNum (Fin (6 # 5)))].

(** The cells of a frame, row by row, under the given labels. *)
Definition view (cs : list string) (df : DataFrame) : list (list cell) :=
  (λ r, (λ c, get c r) <$> cs) <$> rows df.

End Demo.

(* ===================================================================== *)
(** ** Proof automation *)
(* ===================================================================== *)

(** Turn boolean comparisons of rationals in the hypotheses into
    propositions that [lra] understands. *)
Ltac Qbools :=
  repeat match goal with
  | H : Qle_bool _ _ = true |- _ => apply Qle_bool_iff in H
  | H : Qle_bool _ _ = false |- _ =>
      apply not_true_iff_false in H; rewrite Qle_bool_iff in H;
      apply Qnot_le_lt in H
  | H : Qeq_bool _ _ = true |- _ => apply Qeq_bool_iff in H
  | H : Qeq_bool _ _ = false |- _ => apply Qeq_bool_neq in H
  end.

(** Membership in a list that is written out. *)
Ltac in_list :=
  repeat first [apply list_elem_of_here | apply list_elem_of_further].

(** The order of the enriched frame: unit, sub-unit, date. *)
Abbreviation series_order :=
  (λ x y : Frame.Row,
     Frame.row_leb ["tpu"; "reactor"; "date"]%string x y = true).

(* ===================================================================== *)
(** * Properties *)
(* ===================================================================== *)

Import FlowCam.

(* --------------------------------------------------------------------- *)
(** ** The unit tests of the repository *)
(* --------------------------------------------------------------------- *)

Module UnitTests.
Import Demo.

(** test_validate_flowcam_data_valid *)
Example test_validate_flowcam_data_valid :
  let result := (validate_flowcam_data test_valid).1 in
  is_valid result = true ∧ length (errors result) = 0%nat
  ∧ row_count result = 2%nat.
Proof. by vm_compute. Qed.

(** test_validate_flowcam_data_missing_columns *)
Example test_validate_flowcam_data_missing_columns :
  let result := (validate_flowcam_data test_missing_columns).1 in
  is_valid result = false
  ∧ errors result
    = ["Missing required columns: {'algae_density', 'reactor'}"%string].
Proof. by vm_compute. Qed.

(** test_validate_flowcam_data_invalid_values *)
Example test_validate_flowcam_data_invalid_values :
  let result := (validate_flowcam_data test_invalid_values).1 in
  is_valid result = true
  ∧ warnings result
    = ["1 invalid dates found"; "1 TPU values out of range";
       "1 reactor values out of range";
       "1 density values out of range"]%string.
Proof. by vm_compute. Qed.

(** test_clean_flowcam_data *)
Example test_clean_flowcam_data :
  let result := clean_flowcam_data test_clean in
  (length (rows result) < length (rows test_clean))%nat
  ∧ view ["date"; "tpu"; "reactor"; "algae_density"] result
    = [[day 19723; VNum (Fin 1); VNum (Fin 1); VNum (Fin (6 # 5))];
       [day 19725; VNum (Fin 3); VNum (Fin 3); VNum (Fin (3 # 2))]]
  ∧ idx <$> rows result = [0; 1].
Proof. by vm_compute. Qed.

(** test_add_derived_columns *)
Example test_add_derived_columns :
  let result := add_derived_columns test_derived in
  columns result
  = ["date"; "tpu"; "reactor"; "algae_density"; "year"; "month"; "day";
     "day_of_week"; "week_of_year"; "density_category"; "density_change";
     "density_change_pct"]%string
  ∧ view ["year"; "month"; "day"; "day_of_week"; "week_of_year";
          "density_category"; "density_change"; "density_change_pct"] result
    = [[VNum (Fin 2024); VNum (Fin 1); VNum (Fin 1); VNum (Fin 0);
        VNum (Fin 1); VStr "Medium"; VNum NaN; VNum NaN];
       [VNum (Fin 2024); VNum (Fin 1); VNum (Fin 2); VNum (Fin 1);
        VNum (Fin 1); VStr "Medium"; VNum NaN; VNum NaN]].
Proof. by vm_compute. Qed.

(** test_calculate_daily_aggregates, with the values of the end-to-end
    example of the specification. *)
Example test_calculate_daily_aggregates :
  let result := calculate_daily_aggregates test_aggregates in
  length (rows result) = 2%nat
  ∧ columns result
    = ["date"; "tpu"; "reactor"; "avg_density"; "min_density";
       "max_density"; "std_density"; "measurement_count"]%string
  ∧ view ["date"; "tpu"; "reactor"; "avg_density"; "min_density";
          "max_density"; "std_density"; "measurement_count"] result
    = [[day 19723; VNum (Fin 1); VNum (Fin 1); VNum (Fin (13 # 10));
        VNum (Fin (6 # 5)); VNum (Fin (7 # 5)); VNum (Fin (707 # 5000));
        VNum (Fin 2)];
       [day 19724; VNum (Fin 1); VNum (Fin 1); VNum (Fin (8 # 5));
        VNum (Fin (8 # 5)); VNum (Fin (8 # 5)); VNum NaN; VNum (Fin 1)]].
Proof. by vm_compute. Qed.

(** test_process_flowcam_file_success *)
Example test_process_flowcam_file_success :
  ∃ result, process_flowcam_file (Some test_valid) = Some result
            ∧ length (rows result) = 2%nat
            ∧ "year"%string ∈ columns result
            ∧ "density_category"%string ∈ columns result.
Proof.
  eexists. split; [by vm_compute|]. split; [by vm_compute|].
  split; cbn; in_list.
Qed.

(** test_process_flowcam_file_failure: the file could not be read. *)
Example test_process_flowcam_file_failure :
  process_flowcam_file None = None.
Proof. reflexivity. Qed.

(** A reading with unit 15 is reported with a warning only and is not in
    the cleaned table. *)
Example out_of_range_unit_is_dropped :
  let report := (validate_flowcam_data test_invalid_values).1 in
  is_valid report = true
  ∧ length (rows (validate_flowcam_data test_invalid_values).2) = 2%nat
  ∧ view ["tpu"] (clean_flowcam_data test_invalid_values) = [[VNum (Fin 1)]].
Proof. by vm_compute. Qed.

End UnitTests.

(* --------------------------------------------------------------------- *)
(** ** Floats and the density categories *)
(* --------------------------------------------------------------------- *)

Module FloatFacts.

Lemma Qle_bool_false (a b : Q) : Qle_bool a b = false ↔ (b < a)%Q.
Proof.
  split; intros Hab.
  - apply Qnot_le_lt. intros Hle. apply Qle_bool_iff in Hle. congruence.
  - destruct (Qle_bool a b) eqn:E; [|done].
    apply Qle_bool_iff in E. exfalso. eapply Qlt_not_le; eauto.
Qed.

Lemma geb_Fin (x : num) (b : Q) :
  geb x (Fin b) = true → x = PInf ∨ ∃ a, x = Fin a ∧ (b <= a)%Q.
Proof.
  destruct x as [a| | |]; cbn; try done; [|by left].
  intros Hle. right. exists a. split; [done|]. by apply Qle_bool_iff.
Qed.

Lemma leb_Fin (x : num) (b : Q) :
  leb x (Fin b) = true → x = NInf ∨ ∃ a, x = Fin a ∧ (a <= b)%Q.
Proof.
  destruct x as [a| | |]; cbn; try done; [|by left].
  intros Hle. right. exists a. split; [done|]. by apply Qle_bool_iff.
Qed.

Lemma between_Fin (x : num) (lo hi : Q) :
  geb x (Fin lo) && leb x (Fin hi) = true ↔
  ∃ a, x = Fin a ∧ (lo <= a <= hi)%Q.
Proof.
  split.
  - intros [Hge Hle]%andb_true_iff.
    apply geb_Fin in Hge as [->|(a & -> & Ha)]; [done|].
    apply leb_Fin in Hle as [?|(a' & [= <-] & Ha')]; [done|]. eauto.
  - intros (a & -> & Hlo & Hhi). cbn.
    apply andb_true_iff. split; by apply Qle_bool_iff.
Qed.

End FloatFacts.

Import FloatFacts.

Lemma density_category_Fin (q : Q) :
  density_category (Fin q) =
    if Qle_bool 0 q && Qle_bool q (1 # 2) then Some "Very Low"%string
    else if Qle_bool 0 q && Qle_bool q 1 then Some "Low"%string
    else if Qle_bool 0 q && Qle_bool q (3 # 2) then Some "Medium"%string
    else if Qle_bool 0 q && Qle_bool q 2 then Some "High"%string
    else if Qle_bool 0 q && Qle_bool q 3 then Some "Very High"%string
    else None.
Proof.
  unfold density_category, cut, searchsorted_left, density_bins. cbn.
  destruct (Qle_bool q 0) eqn:E0, (Qle_bool q (1 # 2)) eqn:E1,
    (Qle_bool q 1) eqn:E2, (Qle_bool q (3 # 2)) eqn:E3,
    (Qle_bool q 2) eqn:E4, (Qle_bool q 3) eqn:E5,
    (Qeq_bool q 0) eqn:E6, (Qle_bool 0 q) eqn:E7;
    cbn; try reflexivity; Qbools; exfalso; lra.
Qed.

Lemma density_category_intervals (q : Q) :
  (density_category (Fin q) = Some "Very Low"%string ↔ (0 <= q <= 1 # 2)%Q)
  ∧ (density_category (Fin q) = Some "Low"%string ↔ (1 # 2 < q <= 1)%Q)
  ∧ (density_category (Fin q) = Some "Medium"%string ↔ (1 < q <= 3 # 2)%Q)
  ∧ (density_category (Fin q) = Some "High"%string ↔ (3 # 2 < q <= 2)%Q)
  ∧ (density_category (Fin q) = Some "Very High"%string ↔ (2 < q <= 3)%Q)
  ∧ (density_category (Fin q) = None ↔ ¬ (0 <= q <= 3)%Q).
Proof.
  rewrite density_category_Fin.
  destruct (Qle_bool 0 q) eqn:E0, (Qle_bool q (1 # 2)) eqn:E1,
    (Qle_bool q 1) eqn:E2, (Qle_bool q (3 # 2)) eqn:E3,
    (Qle_bool q 2) eqn:E4, (Qle_bool q 3) eqn:E5;
    cbn; Qbools; repeat split; intros; try discriminate; try done;
    try lra; exfalso; lra.
Qed.

(** C4.  The density category of exactly 0 and of exactly 0.5 is Very
    Low, of exactly 1.5 Medium, of exactly 3 Very High; the categories are
    the intervals [0, 0.5], (0.5, 1], (1, 1.5], (1.5, 2], (2, 3]; and a
    measurement has no category exactly when it is outside [0, 3] (NaN and
    the infinities included): the function returns for every input. *)
Theorem density_category_boundaries :
  density_category (Fin 0) = Some "Very Low"%string
  ∧ density_category (Fin (1 # 2)) = Some "Very Low"%string
  ∧ density_category (Fin (3 # 2)) = Some "Medium"%string
  ∧ density_category (Fin 3) = Some "Very High"%string
  ∧ (∀ q, density_category (Fin q) = Some "Very Low"%string
          ↔ (0 <= q <= 1 # 2)%Q)
  ∧ (∀ q, density_category (Fin q) = Some "Low"%string
          ↔ (1 # 2 < q <= 1)%Q)
  ∧ (∀ q, density_category (Fin q) = Some "Medium"%string
          ↔ (1 < q <= 3 # 2)%Q)
  ∧ (∀ q, density_category (Fin q) = Some "High"%string
          ↔ (3 # 2 < q <= 2)%Q)
  ∧ (∀ q, density_category (Fin q) = Some "Very High"%string
          ↔ (2 < q <= 3)%Q)
  ∧ (∀ x, density_category x = None
          ↔ ¬ ∃ q, x = Fin q ∧ (0 <= q <= 3)%Q).
Proof.
  do 4 (split; [reflexivity|]).
  split; [intros q; apply density_category_intervals|].
  split; [intros q; apply density_category_intervals|].
  split; [intros q; apply density_category_intervals|].
  split; [intros q; apply density_category_intervals|].
  split; [intros q; apply density_category_intervals|].
  intros [q| | |].
  - destruct (density_category_intervals q) as (_ & _ & _ & _ & _ & ->).
    split.
    + intros Hn (q' & [= <-] & Hq). by apply Hn.
    + intros Hn Hq. apply Hn. by exists q.
  - split; [|reflexivity]. by intros _ (q & ? & _).
  - split; [|reflexivity]. by intros _ (q & ? & _).
  - split; [|reflexivity]. by intros _ (q & ? & _).
Qed.

(** The invariants of C3 on three readings of one reactor. *)

(* --------------------------------------------------------------------- *)
(** ** Frames *)
(* --------------------------------------------------------------------- *)

Module FrameFacts.

Lemma get_set_eq c v r : get c (set c v r) = v.
Proof. unfold get, set. cbn. by rewrite lookup_insert_eq. Qed.

Lemma get_set_ne c c' v r : c ≠ c' → get c (set c' v r) = get c r.
Proof. intros Hne. unfold get, set. cbn. by rewrite lookup_insert_ne. Qed.

Lemma cells_set c v r : cells (set c v r) = <[c := v]> (cells r).
Proof. done. Qed.

Lemma set_id c v r : cells r !! c = Some v → set c v r = r.
Proof. intros Hc. destruct r as [i m]. unfold set. cbn in *. by rewrite insert_id. Qed.

Lemma add_label_elem c cs : c ∈ cs → add_label c cs = cs.
Proof. intros Hc. unfold add_label. by rewrite bool_decide_eq_true_2. Qed.

Lemma has_columns_elem cs df c :
  has_columns cs df = true → c ∈ cs → has_column c df = true.
Proof.
  unfold has_columns. rewrite forallb_forall. intros Hall Hc.
  apply Hall. by apply list_elem_of_In.
Qed.

Lemma zip_with_set_map c (f : Row → cell) (l : list Row) :
  zip_with (λ r v, set c v r) l (f <$> l) = (λ r, set c (f r) r) <$> l.
Proof. induction l as [|r l IH]; cbn; [done|]. by rewrite IH. Qed.

Lemma set_column_map c (f : Row → cell) df :
  has_column c df = true →
  set_column c (f <$> rows df) df =
    mkFrame (columns df) ((λ r, set c (f r) r) <$> rows df).
Proof.
  intros Hc. unfold set_column. rewrite zip_with_set_map.
  apply bool_decide_eq_true in Hc. by rewrite add_label_elem.
Qed.

Lemma assign_Some c f df :
  has_column c df = true →
  assign c f df =
    Some (mkFrame (columns df) ((λ r, set c (f (get c r)) r) <$> rows df)).
Proof.
  intros Hc. unfold assign, column. rewrite Hc. cbn.
  rewrite <- list_fmap_compose.
  by rewrite (set_column_map c (f ∘ get c)).
Qed.

Lemma assign_None c f df : has_column c df = false → assign c f df = None.
Proof. intros Hc. unfold assign, column. by rewrite Hc. Qed.

(** *** The stable sort *)

Section Sort.
Context {A : Type} (le : A → A → bool).
Hypothesis le_total : ∀ x y, le x y = true ∨ le y x = true.

Lemma insert_sorted_Permutation x l : insert_sorted le x l ≡ₚ x :: l.
Proof.
  induction l as [|y l IH]; cbn; [done|].
  destruct (le x y); [done|]. rewrite IH. apply Permutation_swap.
Qed.

Lemma stable_sort_Permutation l : stable_sort le l ≡ₚ l.
Proof.
  induction l as [|x l IH]; cbn; [done|].
  by rewrite insert_sorted_Permutation, IH.
Qed.

Lemma insert_sorted_HdRel a x l :
  le a x = true → HdRel (λ x y, le x y = true) a l →
  HdRel (λ x y, le x y = true) a (insert_sorted le x l).
Proof.
  intros Hax Hal. destruct l as [|y l]; cbn; [by constructor|].
  destruct (le x y); constructor; [done|]. by inversion Hal.
Qed.

Lemma insert_sorted_Sorted x l :
  Sorted (λ x y, le x y = true) l →
  Sorted (λ x y, le x y = true) (insert_sorted le x l).
Proof.
  induction 1 as [|y l Hl IH Hy]; cbn; [by repeat constructor|].
  destruct (le x y) eqn:Hxy.
  - by repeat constructor.
  - constructor; [done|]. apply insert_sorted_HdRel; [|done].
    destruct (le_total x y) as [Hc|Hc]; [congruence|done].
Qed.

Lemma stable_sort_Sorted l : Sorted (λ x y, le x y = true) (stable_sort le l).
Proof.
  induction l as [|x l IH]; cbn; [constructor|]. by apply insert_sorted_Sorted.
Qed.

Lemma insert_sorted_HdRel_id x l :
  HdRel (λ x y, le x y = true) x l → insert_sorted le x l = x :: l.
Proof. destruct 1 as [|y l Hxy]; cbn; [done|]. by rewrite Hxy. Qed.

(** A list that is in order already is left as it is. *)
Lemma stable_sort_id l :
  Sorted (λ x y, le x y = true) l → stable_sort le l = l.
Proof.
  induction 1 as [|x l Hl IH Hx]; cbn; [done|].
  rewrite IH. by apply insert_sorted_HdRel_id.
Qed.

Lemma stable_sort_elem_of x l : x ∈ stable_sort le l ↔ x ∈ l.
Proof. by rewrite stable_sort_Permutation. Qed.

End Sort.

(** *** The order of rows is total *)

Lemma num_compare_antisym x y : num_compare y x = CompOpp (num_compare x y).
Proof.
  destruct x, y; cbn; try done. symmetry. apply Qcompare_antisym.
Qed.

Lemma cell_compare_antisym a b : cell_compare b a = CompOpp (cell_compare a b).
Proof.
  unfold cell_compare. rewrite (orb_comm (isna b)).
  destruct (isna a || isna b).
  - apply Z.compare_antisym.
  - destruct a, b; try apply Z.compare_antisym.
    + apply String.compare_antisym.
    + apply num_compare_antisym.
Qed.

Lemma row_compare_antisym by_ r1 r2 :
  row_compare by_ r2 r1 = CompOpp (row_compare by_ r1 r2).
Proof.
  induction by_ as [|c cs IH]; cbn; [done|].
  rewrite (cell_compare_antisym (get c r1) (get c r2)).
  destruct (cell_compare (get c r1) (get c r2)); cbn; done.
Qed.

Lemma row_leb_total by_ r1 r2 :
  row_leb by_ r1 r2 = true ∨ row_leb by_ r2 r1 = true.
Proof.
  unfold row_leb. rewrite (row_compare_antisym by_ r1 r2).
  destruct (row_compare by_ r1 r2); cbn; auto.
Qed.

(** The order looks at the cells only. *)
Lemma row_compare_cells by_ r1 r2 r1' r2' :
  cells r1 = cells r1' → cells r2 = cells r2' →
  row_compare by_ r1 r2 = row_compare by_ r1' r2'.
Proof.
  intros H1 H2. induction by_ as [|c cs IH]; cbn; [done|].
  unfold get. by rewrite H1, H2, IH.
Qed.

(** *** reset_index *)

Lemma relabel_lookup l i :
  relabel l !! i = (λ r, mkRow (Z.of_nat i) (cells r)) <$> l !! i.
Proof. unfold relabel. by rewrite list_lookup_imap. Qed.

Lemma relabel_relabel l : relabel (relabel l) = relabel l.
Proof.
  apply list_eq. intros i. rewrite !relabel_lookup.
  by destruct (l !! i).
Qed.

Lemma relabel_cells l : cells <$> relabel l = cells <$> l.
Proof.
  apply list_eq. intros i. rewrite !list_lookup_fmap, relabel_lookup.
  by destruct (l !! i).
Qed.

Lemma elem_of_relabel r l :
  r ∈ relabel l → ∃ r', r' ∈ l ∧ cells r = cells r'.
Proof.
  intros (i & Hi)%list_elem_of_lookup. rewrite relabel_lookup in Hi.
  destruct (l !! i) as [r'|] eqn:E; [|done]. injection Hi as <-.
  exists r'. split; [|done]. by eapply list_elem_of_lookup_2.
Qed.

End FrameFacts.

Import FrameFacts.

(* --------------------------------------------------------------------- *)
(** ** Coercion and measurement records *)
(* --------------------------------------------------------------------- *)

Module CleanFacts.

Lemma filter_all {A} (p : A → bool) l :
  Forall (λ x, p x = true) l → List.filter p l = l.
Proof. induction 1 as [|x l Hx _ IH]; cbn; [done|]. by rewrite Hx, IH. Qed.

Lemma elem_of_filter_bool {A} (p : A → bool) l x :
  x ∈ List.filter p l ↔ x ∈ l ∧ p x = true.
Proof. rewrite !list_elem_of_In. apply filter_In. Qed.

Lemma homogeneous_kind k s :
  Forall (λ c, kind_rank c = k) s → homogeneous s = true.
Proof.
  intros Hs. unfold homogeneous.
  destruct (List.filter notna s) as [|c cs] eqn:E; [done|].
  assert (Hsub : ∀ d, d ∈ c :: cs → kind_rank d = k).
  { intros d Hd. rewrite <- E in Hd. apply elem_of_filter_bool in Hd as [Hd _].
    by eapply (proj1 (Forall_forall _ _) Hs). }
  apply forallb_forall. intros d Hd%list_elem_of_In.
  rewrite (Hsub d), (Hsub c); [lia|left|by right].
Qed.

(** The validator finds no required column missing exactly on the
    structurally valid frames. *)
Lemma missing_columns_empty df :
  missing_columns df = ∅ ↔ structurally_valid df.
Proof.
  unfold structurally_valid, missing_columns, has_columns, has_column.
  rewrite forallb_forall. split.
  - intros Hm c Hc%list_elem_of_In. apply bool_decide_eq_true.
    destruct (decide (c ∈ columns df)) as [|Hn]; [done|].
    assert (c ∈ (list_to_set required_columns ∖ list_to_set (columns df)
                 : gset string)) as Hin.
    { apply elem_of_difference. by rewrite !elem_of_list_to_set. }
    rewrite Hm in Hin. by apply not_elem_of_empty in Hin.
  - intros Hall. apply set_eq. intros c. split;
      [|by intros ?%not_elem_of_empty].
    intros [Hc Hn]%elem_of_difference.
    apply elem_of_list_to_set in Hc. exfalso. apply Hn.
    apply elem_of_list_to_set.
    apply list_elem_of_In, Hall in Hc. by apply bool_decide_eq_true in Hc.
Qed.

Section WithCoercers.
Context `{Coercers}.

Lemma to_datetime_idemp c : to_datetime (to_datetime c) = to_datetime c.
Proof.
  destruct c as [s|x| |]; cbn; try done.
  - by destruct (str_to_datetime s).
  - by destruct (num_to_datetime x).
Qed.

Lemma to_numeric_idemp c : to_numeric (to_numeric c) = to_numeric c.
Proof. by destruct c. Qed.

Lemma to_datetime_notna c :
  notna (to_datetime c) = true → ∃ t, to_datetime c = VTime t.
Proof.
  destruct c as [s|x|t|]; cbn; try done; eauto.
  - destruct (str_to_datetime s); cbn; [eauto|done].
  - destruct (num_to_datetime x); cbn; [eauto|done].
Qed.

Lemma to_numeric_VNum c : ∃ x, to_numeric c = VNum x.
Proof. destruct c; cbn; eauto. Qed.

(** The cells of a coerced row. *)
Lemma coerce_row_date r :
  cells (coerce_row r) !! "date" = Some (to_datetime (get "date" r)).
Proof. unfold coerce_row. rewrite !cells_set. by simplify_map_eq. Qed.
Lemma coerce_row_tpu r :
  cells (coerce_row r) !! "tpu" = Some (to_numeric (get "tpu" r)).
Proof. unfold coerce_row. rewrite !cells_set. by simplify_map_eq. Qed.
Lemma coerce_row_reactor r :
  cells (coerce_row r) !! "reactor" = Some (to_numeric (get "reactor" r)).
Proof. unfold coerce_row. rewrite !cells_set. by simplify_map_eq. Qed.
Lemma coerce_row_density r :
  cells (coerce_row r) !! "algae_density"
  = Some (to_numeric (get "algae_density" r)).
Proof. unfold coerce_row. rewrite !cells_set. by simplify_map_eq. Qed.

(** Every other cell passes through. *)
Lemma coerce_row_other r c :
  c ∉ required_columns → cells (coerce_row r) !! c = cells r !! c.
Proof.
  intros Hc. unfold coerce_row. rewrite !cells_set.
  rewrite !lookup_insert_ne; [done|..]; intros Heq; subst c; apply Hc;
    unfold required_columns; in_list.
Qed.

Lemma get_coerce_row_date r :
  get "date" (coerce_row r) = to_datetime (get "date" r).
Proof. unfold get at 1. by rewrite coerce_row_date. Qed.
Lemma get_coerce_row_tpu r :
  get "tpu" (coerce_row r) = to_numeric (get "tpu" r).
Proof. unfold get at 1. by rewrite coerce_row_tpu. Qed.
Lemma get_coerce_row_reactor r :
  get "reactor" (coerce_row r) = to_numeric (get "reactor" r).
Proof. unfold get at 1. by rewrite coerce_row_reactor. Qed.
Lemma get_coerce_row_density r :
  get "algae_density" (coerce_row r) = to_numeric (get "algae_density" r).
Proof. unfold get at 1. by rewrite coerce_row_density. Qed.

Lemma coerce_row_idemp r : coerce_row (coerce_row r) = coerce_row r.
Proof.
  unfold coerce_row at 1.
  rewrite get_coerce_row_date, get_coerce_row_tpu, get_coerce_row_reactor,
    get_coerce_row_density.
  rewrite to_datetime_idemp, !to_numeric_idemp.
  rewrite (set_id "date"); [|apply coerce_row_date].
  rewrite (set_id "tpu"); [|apply coerce_row_tpu].
  rewrite (set_id "reactor"); [|apply coerce_row_reactor].
  rewrite (set_id "algae_density"); [|apply coerce_row_density].
  done.
Qed.

(** A retained row satisfies the invariants of a measurement record. *)
Lemma retained_measurement_record r :
  retained r = true → measurement_record (coerce_row r).
Proof.
  unfold retained, complete_row, in_ranges, in_range.
  rewrite !andb_true_iff. cbn [forallb].
  rewrite !andb_true_iff.
  rewrite get_coerce_row_date, get_coerce_row_tpu, get_coerce_row_reactor,
    get_coerce_row_density.
  intros [(Hd & Ht & Hr & Ha & _) [[[Ht1 Ht2] [Hr1 Hr2]] [Ha1 Ha2]]].
  apply to_datetime_notna in Hd as [t Hd].
  unfold measurement_record.
  rewrite coerce_row_date, coerce_row_tpu, coerce_row_reactor,
    coerce_row_density.
  destruct (to_numeric_VNum (get "tpu" r)) as [x Hx].
  destruct (to_numeric_VNum (get "reactor" r)) as [y Hy].
  destruct (to_numeric_VNum (get "algae_density" r)) as [z Hz].
  rewrite Hx in *. rewrite Hy in *. rewrite Hz in *. cbn in *.
  assert (∀ u lo hi, geb u (Fin lo) = true → leb u (Fin hi) = true →
            ∃ q, u = Fin q ∧ (lo <= q <= hi)%Q) as Hb.
  { intros u lo hi H1 H2. apply between_Fin. by rewrite H1, H2. }
  destruct (Hb _ _ _ Ht1 Ht2) as (a & -> & ?).
  destruct (Hb _ _ _ Hr1 Hr2) as (b & -> & ?).
  destruct (Hb _ _ _ Ha1 Ha2) as (d & -> & ?).
  rewrite Hd. repeat split; eauto.
Qed.

End WithCoercers.

(** What a measurement record reads as, and what the cleaner's tests say
    of it. *)
Lemma measurement_record_get r :
  measurement_record r →
  (∃ t, get "date" r = VTime t) ∧
  (∃ q, get "tpu" r = VNum (Fin q) ∧ (1 <= q <= 10)%Q) ∧
  (∃ q, get "reactor" r = VNum (Fin q) ∧ (1 <= q <= 20)%Q) ∧
  (∃ q, get "algae_density" r = VNum (Fin q) ∧ (0 <= q <= 3)%Q).
Proof.
  intros ((t & Ht) & (a & Ha & ?) & (b & Hb & ?) & (d & Hd & ?)).
  unfold get. rewrite Ht, Ha, Hb, Hd. cbn. repeat split; eauto.
Qed.

Lemma measurement_record_cells r r' :
  cells r = cells r' → measurement_record r → measurement_record r'.
Proof. unfold measurement_record. by intros ->. Qed.

Lemma measurement_record_kept r :
  measurement_record r → complete_row r = true ∧ in_ranges r = true.
Proof.
  intros ((t & Ht) & (a & Ha & ? & ?) & (b & Hb & ? & ?) & (d & Hd & ? & ?))%measurement_record_get.
  unfold complete_row, in_ranges, in_range. cbn [forallb].
  rewrite Ht, Ha, Hb, Hd. cbn.
  rewrite !andb_true_iff, !Qle_bool_iff. tauto.
Qed.

Lemma measurement_record_fixed `{Coercers} r :
  measurement_record r → coerce_row r = r.
Proof.
  intros ((t & Ht) & (a & Ha & _) & (b & Hb & _) & (d & Hd & _)).
  unfold coerce_row, get. rewrite Ht, Ha, Hb, Hd. cbn.
  rewrite (set_id "date" _ r Ht), (set_id "tpu" _ r Ha),
    (set_id "reactor" _ r Hb).
  by apply set_id.
Qed.

End CleanFacts.

Import CleanFacts.

(* --------------------------------------------------------------------- *)
(** ** The cleaner *)
(* --------------------------------------------------------------------- *)

Section CleanNormalForm.
Context `{Coercers}.

Lemma coerce_row_steps r :
  let r1 := set "date" (to_datetime (get "date" r)) r in
  let r2 := set "tpu" (to_numeric (get "tpu" r1)) r1 in
  let r3 := set "reactor" (to_numeric (get "reactor" r2)) r2 in
  set "algae_density" (to_numeric (get "algae_density" r3)) r3 = coerce_row r.
Proof.
  cbn. unfold coerce_row.
  by rewrite !get_set_ne by done.
Qed.

Lemma assign_coerce_frame df :
  has_columns required_columns df = true →
  (d ← assign "date" to_datetime df;
   d ← assign "tpu" to_numeric d;
   d ← assign "reactor" to_numeric d;
   assign "algae_density" to_numeric d)
  = Some (coerce_frame df).
Proof.
  intros Hc.
  assert (∀ c, c ∈ required_columns → has_column c df = true) as Hcol.
  { intros c Hin. by apply (has_columns_elem required_columns df). }
  assert (has_column "date" df = true) as H1
    by (apply Hcol; unfold required_columns; in_list).
  assert (has_column "tpu" df = true) as H2
    by (apply Hcol; unfold required_columns; in_list).
  assert (has_column "reactor" df = true) as H3
    by (apply Hcol; unfold required_columns; in_list).
  assert (has_column "algae_density" df = true) as H4
    by (apply Hcol; unfold required_columns; in_list).
  rewrite assign_Some by exact H1. cbn.
  rewrite assign_Some by exact H2. cbn.
  rewrite assign_Some by exact H3. cbn.
  rewrite assign_Some by exact H4. cbn.
  unfold coerce_frame. f_equal. f_equal.
  rewrite <- !list_fmap_compose. apply list_fmap_ext. intros _ r _.
  apply coerce_row_steps.
Qed.

Lemma retained_rows_measurement (l : list Row) r :
  r ∈ List.filter in_ranges (List.filter complete_row (coerce_row <$> l)) →
  measurement_record r.
Proof.
  intros [[(r0 & -> & _)%list_elem_of_fmap Hc]%elem_of_filter_bool Hr]%elem_of_filter_bool.
  apply retained_measurement_record. unfold retained. by rewrite Hc, Hr.
Qed.

Lemma measurement_records_homogeneous (l : list Row) c :
  c ∈ ["date"; "tpu"; "reactor"] →
  Forall measurement_record l → homogeneous (get c <$> l) = true.
Proof.
  intros Hc Hl.
  apply (homogeneous_kind (if bool_decide (c = "date"%string) then 2 else 0)).
  apply Forall_fmap. eapply Forall_impl; [exact Hl|]. intros r Hr. cbn.
  apply measurement_record_get in Hr
    as ((t & Ht) & (a & Ha & _) & (b & Hb & _) & _).
  apply elem_of_cons in Hc as [->|Hc]; [by rewrite Ht|].
  apply elem_of_cons in Hc as [->|Hc]; [by rewrite Ha|].
  apply elem_of_cons in Hc as [->|Hc]; [by rewrite Hb|].
  by apply elem_of_nil in Hc.
Qed.

(** The cleaner runs through when no required column is missing, and then
    returns the retained rows, coerced, in order and indexed from 0. *)
Lemma clean_steps_Some df :
  has_columns required_columns df = true →
  clean_steps df = Some (mkFrame (columns df) (cleaned_rows (rows df))).
Proof.
  intros Hc. unfold clean_steps.
  pose proof (assign_coerce_frame df Hc) as Ha. cbn in Ha |- *.
  destruct (assign "date" to_datetime df) as [d1|]; [|done]. cbn in Ha |- *.
  destruct (assign "tpu" to_numeric d1) as [d2|]; [|done]. cbn in Ha |- *.
  destruct (assign "reactor" to_numeric d2) as [d3|]; [|done]. cbn in Ha |- *.
  rewrite Ha. cbn.
  assert (∀ cs l, Forall (λ c, c ∈ required_columns) cs →
            has_columns cs (mkFrame (columns df) l) = true) as Hcols.
  { intros cs l Hsub. unfold has_columns. apply forallb_forall.
    intros c Hin%list_elem_of_In.
    apply (has_columns_elem required_columns df); [done|].
    by apply (proj1 (Forall_forall _ _) Hsub). }
  unfold dropna, coerce_frame.
  rewrite Hcols by (unfold required_columns; repeat constructor; in_list).
  cbn.
  unfold select.
  rewrite Hcols by (unfold required_columns; repeat constructor; in_list).
  cbn.
  unfold sort_values.
  rewrite Hcols by (unfold required_columns; repeat constructor; in_list).
  cbn [andb forallb columns rows].
  set (L := List.filter _ (List.filter _ (coerce_row <$> rows df))).
  assert (Forall measurement_record L) as HL.
  { apply Forall_forall. intros r Hr. by eapply retained_rows_measurement. }
  rewrite !measurement_records_homogeneous by (done || in_list).
  done.
Qed.

Lemma clean_steps_None df :
  has_columns required_columns df = false → clean_steps df = None.
Proof.
  intros Hc. unfold clean_steps.
  destruct (has_column "date" df) eqn:E1;
    [|by rewrite assign_None].
  rewrite assign_Some by done. cbn.
  destruct (has_column "tpu" df) eqn:E2;
    [|by rewrite assign_None].
  rewrite assign_Some by done. cbn.
  destruct (has_column "reactor" df) eqn:E3;
    [|by rewrite assign_None].
  rewrite assign_Some by done. cbn.
  destruct (has_column "algae_density" df) eqn:E4;
    [|by rewrite assign_None].
  exfalso. unfold has_columns, required_columns in Hc. cbn in Hc.
  by rewrite E1, E2, E3, E4 in Hc.
Qed.

Lemma clean_flowcam_data_valid df :
  structurally_valid df →
  clean_flowcam_data df = mkFrame (columns df) (cleaned_rows (rows df)).
Proof.
  intros Hv. unfold clean_flowcam_data. by rewrite clean_steps_Some.
Qed.

Lemma cleaned_rows_measurement (l : list Row) r :
  r ∈ cleaned_rows l → measurement_record r.
Proof.
  unfold cleaned_rows. intros (r' & Hr' & Hcells)%elem_of_relabel.
  apply (measurement_record_cells r'); [done|].
  apply stable_sort_elem_of in Hr'. by eapply retained_rows_measurement.
Qed.

End CleanNormalForm.

Section CleanTheorems.
Context `{Coercers}.


Lemma Sorted_cells (by_ : list string) (l l' : list Row) :
  cells <$> l = cells <$> l' →
  Sorted (λ x y, row_leb by_ x y = true) l →
  Sorted (λ x y, row_leb by_ x y = true) l'.
Proof.
  intros Hc Hl. revert l' Hc.
  induction Hl as [|x l Hl IH Hx]; intros [|x' l'] Hc; try done;
    try (by constructor).
  injection Hc as Hx' Hl'. constructor; [by apply IH|].
  destruct Hx as [|y l Hxy]; destruct l' as [|y' l']; try done;
    constructor.
  injection Hl' as Hy' _. unfold row_leb in *.
  by rewrite <- (row_compare_cells by_ x y x' y').
Qed.

Lemma cleaned_rows_fixed (l : list Row) :
  cleaned_rows (cleaned_rows l) = cleaned_rows l.
Proof.
  assert (Forall measurement_record (cleaned_rows l)) as Hm.
  { apply Forall_forall. intros r. apply cleaned_rows_measurement. }
  unfold cleaned_rows at 1.
  assert (coerce_row <$> cleaned_rows l = cleaned_rows l) as ->.
  { rewrite <- (list_fmap_id (cleaned_rows l)) at 2.
    apply list_fmap_ext. intros i r Hr. apply measurement_record_fixed.
    eapply (proj1 (Forall_forall _ _) Hm), list_elem_of_lookup_2, Hr. }
  rewrite (filter_all complete_row);
    [|eapply Forall_impl; [exact Hm|]; intros r Hr;
      by apply measurement_record_kept].
  rewrite (filter_all in_ranges);
    [|eapply Forall_impl; [exact Hm|]; intros r Hr;
      by apply measurement_record_kept].
  rewrite stable_sort_id.
  - unfold cleaned_rows. apply relabel_relabel.
  - unfold cleaned_rows. eapply Sorted_cells; [symmetry; apply relabel_cells|].
    apply stable_sort_Sorted, row_leb_total.
Qed.


Lemma filter_fmap_bool {A B} (f : A → B) (p : B → bool) (l : list A) :
  List.filter p (f <$> l) = f <$> List.filter (λ x, p (f x)) l.
Proof.
  induction l as [|x l IH]; cbn; [done|].
  destruct (p (f x)); cbn; by rewrite IH.
Qed.

Lemma filter_filter_bool {A} (p q : A → bool) (l : list A) :
  List.filter q (List.filter p l) = List.filter (λ x, p x && q x) l.
Proof.
  induction l as [|x l IH]; cbn; [done|].
  destruct (p x); cbn; [destruct (q x); cbn|]; by rewrite IH.
Qed.

(** C10.  When the cleaner runs through, the rows of its result are,
    up to their order, the retained rows of the input with the four
    required fields coerced; whether a row is retained depends on its four
    required fields only, and every cell under another label is in the
    result as it was in the input. *)
Theorem clean_keeps_rows_by_required_fields (t out : DataFrame) :
  clean_steps t = Some out →
  cells <$> rows out
    ≡ₚ cells <$> (coerce_row <$> List.filter retained (rows t))
  ∧ (∀ r r', (∀ c, c ∈ required_columns → get c r = get c r') →
             retained r = retained r')
  ∧ (∀ r c, c ∉ required_columns →
            cells (coerce_row r) !! c = cells r !! c).
Proof.
  intros Hout.
  destruct (has_columns required_columns t) eqn:Hc;
    [|by rewrite clean_steps_None in Hout].
  rewrite clean_steps_Some in Hout by done. injection Hout as <-. cbn.
  split; [|split].
  - unfold cleaned_rows. rewrite relabel_cells.
    rewrite stable_sort_Permutation.
    rewrite filter_filter_bool, filter_fmap_bool. done.
  - intros r r' Hreq. unfold retained, complete_row, in_ranges, in_range.
    cbn [forallb].
    rewrite !get_coerce_row_date, !get_coerce_row_tpu,
      !get_coerce_row_reactor, !get_coerce_row_density.
    rewrite !(Hreq "date"%string), !(Hreq "tpu"%string),
      !(Hreq "reactor"%string), !(Hreq "algae_density"%string);
      unfold required_columns;
      [done|repeat first [apply list_elem_of_here|apply list_elem_of_further]..].
  - intros r c Hc'. by apply coerce_row_other.
Qed.

End CleanTheorems.

(* --------------------------------------------------------------------- *)
(** ** The validator and the pipeline *)
(* --------------------------------------------------------------------- *)

Section ValidatorFacts.
Context `{Coercers}.

Lemma warn_if_positive_run n text st :
  warn_if_positive n text st
  = (Returned (), mkVState (frame st) (push_warning n text (report st))).
Proof.
  unfold warn_if_positive, push_warning. destruct (0 <? n)%nat; [done|].
  by destruct st.
Qed.

Lemma assign_in_place_run c f st df :
  assign c f (frame st) = Some df →
  assign_in_place c f st = (Returned (), mkVState df (report st)).
Proof. intros Hop. unfold assign_in_place. by rewrite Hop. Qed.

Lemma push_warning_verdict n text r v e rc cc :
  is_valid r = v ∧ errors r = e ∧ row_count r = rc ∧ column_count r = cc →
  is_valid (push_warning n text r) = v
  ∧ errors (push_warning n text r) = e
  ∧ row_count (push_warning n text r) = rc
  ∧ column_count (push_warning n text r) = cc.
Proof. unfold push_warning. by destruct (0 <? n)%nat. Qed.

Lemma coerce_frame_steps df :
  has_columns required_columns df = true →
  ∃ d1 d2 d3,
    assign "date" to_datetime df = Some d1 ∧
    assign "tpu" to_numeric d1 = Some d2 ∧
    assign "reactor" to_numeric d2 = Some d3 ∧
    assign "algae_density" to_numeric d3 = Some (coerce_frame df).
Proof.
  intros Hc. pose proof (assign_coerce_frame df Hc) as Ha. cbn in Ha.
  destruct (assign "date" to_datetime df) as [d1|]; [|done]. cbn in Ha.
  destruct (assign "tpu" to_numeric d1) as [d2|] eqn:E2; [|done]. cbn in Ha.
  destruct (assign "reactor" to_numeric d2) as [d3|] eqn:E3; [|done].
  cbn in Ha. by exists d1, d2, d3.
Qed.

Lemma validate_checks_run df r :
  has_columns required_columns df = true →
  ∃ r', validate_checks (mkVState df r)
        = (Returned (), mkVState (coerce_frame df) r')
        ∧ is_valid r' = is_valid r ∧ errors r' = errors r
        ∧ row_count r' = row_count r ∧ column_count r' = column_count r.
Proof.
  intros Hc.
  destruct (coerce_frame_steps df Hc) as (d1 & d2 & d3 & H1 & H2 & H3 & H4).
  unfold validate_checks, mbind, V_bind, get_frame.
  rewrite (assign_in_place_run _ _ _ d1) by done.
  rewrite !warn_if_positive_run. cbn [frame report].
  rewrite (assign_in_place_run _ _ _ d2) by done.
  rewrite !warn_if_positive_run. cbn [frame report].
  rewrite (assign_in_place_run _ _ _ d3) by done.
  rewrite !warn_if_positive_run. cbn [frame report].
  rewrite (assign_in_place_run _ _ _ (coerce_frame df)) by done.
  rewrite !warn_if_positive_run. cbn [frame report].
  eexists. split; [reflexivity|].
  repeat apply push_warning_verdict. done.
Qed.

End ValidatorFacts.

Section ValidatorTheorems.
Context `{Coercers}.

Lemma elem_of_missing_columns df c :
  c ∈ missing_columns df ↔ c ∈ required_columns ∧ c ∉ columns df.
Proof.
  unfold missing_columns.
  by rewrite elem_of_difference, !elem_of_list_to_set.
Qed.

(** A structurally valid frame is reported valid, and the caller's frame
    is left with its required columns coerced. *)
Lemma validate_structurally_valid df :
  structurally_valid df →
  ∃ ws, validate_flowcam_data df
        = (mkReport true [] ws (length (rows df)) (length (columns df)),
           coerce_frame df).
Proof.
  intros Hv. unfold validate_flowcam_data.
  rewrite bool_decide_eq_true_2 by (by apply missing_columns_empty).
  cbn [is_valid negb].
  destruct (validate_checks_run df
              (mkReport true [] [] (length (rows df)) (length (columns df))) Hv)
    as (r' & -> & Hval & Herr & Hrc & Hcc).
  cbn [frame report]. destruct r' as [v e ws rc cc]. cbn in *. subst.
  by exists ws.
Qed.

(** C6.  For every table that lacks a required column the validator
    returns at once: the report is invalid, holds the one error that lists
    the missing columns and no warning, and the table is as it was (nothing
    was coerced or checked).  The columns listed are the required ones the
    table does not have, and there is at least one. *)
Theorem validate_missing_columns (t : DataFrame) :
  has_columns required_columns t = false →
  validate_flowcam_data t
  = (mkReport false
       ["Missing required columns: " +:+ set_repr (missing_columns t)] []
       (length (rows t)) (length (columns t)),
     t)
  ∧ (∀ c, c ∈ missing_columns t ↔ c ∈ required_columns ∧ c ∉ columns t)
  ∧ ∃ c, c ∈ missing_columns t.
Proof.
  intros Hc.
  assert (missing_columns t ≠ ∅) as Hne.
  { intros Hm%missing_columns_empty. unfold structurally_valid in Hm.
    congruence. }
  split; [|split; [apply elem_of_missing_columns|]].
  - unfold validate_flowcam_data. by rewrite bool_decide_eq_false_2.
  - by apply set_choose_L.
Qed.

Lemma cleaned_rows_coerced (l : list Row) :
  cleaned_rows (coerce_row <$> l) = cleaned_rows l.
Proof.
  unfold cleaned_rows. do 4 f_equal.
  rewrite <- list_fmap_compose. apply list_fmap_ext.
  intros _ r _. apply coerce_row_idemp.
Qed.


End ValidatorTheorems.

(** C1 (the code departs from this claim).  The validator stores the
    coerced columns back into the table it was given: on a frame of one
    reading whose date is the text 2024-01-01 the caller's date column holds
    that text before the call and a timestamp after it, so the table is not
    what it was. *)
Theorem validate_mutates_caller_frame :
  column "date" Demo.one_reading = Some [VStr "2024-01-01"]
  ∧ column "date" (@validate_flowcam_data Demo.coercers Demo.one_reading).2
    = Some [VTime 1704067200000000000]
  ∧ (@validate_flowcam_data Demo.coercers Demo.one_reading).2 ≠ Demo.one_reading.
Proof.
  split; [|split]; [by vm_compute..|].
  intros Heq. apply (f_equal (column "date")) in Heq.
  vm_compute in Heq. discriminate.
Qed.

(* --------------------------------------------------------------------- *)
(** ** Groups *)
(* --------------------------------------------------------------------- *)

Module GroupFacts.

Lemma float_eqb_sym x y : Float.eqb x y = Float.eqb y x.
Proof. destruct x, y; cbn; try done. apply Qeq_bool_comm. Qed.

Lemma float_eqb_trans x y z :
  Float.eqb x y = true → Float.eqb y z = true → Float.eqb x z = true.
Proof. destruct x, y, z; cbn; try done. apply Qeq_bool_trans. Qed.

Lemma cell_eqb_sym a b : cell_eqb a b = cell_eqb b a.
Proof.
  destruct a, b; cbn; try done.
  - apply String.eqb_sym.
  - apply float_eqb_sym.
  - apply Z.eqb_sym.
Qed.

Lemma cell_eqb_trans a b c :
  cell_eqb a b = true → cell_eqb b c = true → cell_eqb a c = true.
Proof.
  destruct a, b, c; cbn; try done.
  - rewrite !String.eqb_eq. congruence.
  - apply float_eqb_trans.
  - rewrite !Z.eqb_eq. congruence.
Qed.

Lemma same_group_sym by_ r1 r2 : same_group by_ r1 r2 = same_group by_ r2 r1.
Proof.
  unfold same_group. induction by_ as [|c cs IH]; cbn; [done|].
  by rewrite IH, cell_eqb_sym.
Qed.

Lemma same_group_trans by_ r1 r2 r3 :
  same_group by_ r1 r2 = true → same_group by_ r2 r3 = true →
  same_group by_ r1 r3 = true.
Proof.
  unfold same_group. rewrite !forallb_forall. intros H12 H23 c Hc.
  eapply cell_eqb_trans; [by apply H12|by apply H23].
Qed.

(** Rows of one group see the same earlier rows. *)
Lemma same_group_filter by_ k r (l : list Row) :
  same_group by_ k r = true →
  List.filter (same_group by_ r) l = List.filter (same_group by_ k) l.
Proof.
  intros Hkr. induction l as [|x l IH]; cbn; [done|]. rewrite IH.
  assert (same_group by_ r x = same_group by_ k x) as ->; [|done].
  destruct (same_group by_ k x) eqn:Hkx.
  - eapply same_group_trans; [|exact Hkx]. by rewrite same_group_sym.
  - destruct (same_group by_ r x) eqn:Hrx; [|done].
    rewrite <- Hkx. symmetry. by eapply same_group_trans.
Qed.

(** The group of a row is decided by its key cells. *)
Lemma same_group_set by_ k c v r :
  c ∉ by_ → same_group by_ k (set c v r) = same_group by_ k r.
Proof.
  intros Hc. unfold same_group. induction by_ as [|b bs IH]; cbn; [done|].
  rewrite IH by (intros Hin; apply Hc; by right).
  rewrite get_set_ne; [done|]. intros ->. apply Hc. by left.
Qed.

(** The rows of one group of the frame, with the group-wise column
    attached, are the rows of the group with the column computed on the
    group alone. *)
Lemma series_group_scan {B} by_ k c (f : list Row → Row → B) (g : B → cell)
    (before l : list Row) :
  c ∉ by_ →
  series by_ k
    (zip_with (λ r v, set c v r) l (g <$> group_scan by_ f before l))
  = zip_with (λ r v, set c v r) (series by_ k l)
      (g <$> prefix_scan f (series by_ k before) (series by_ k l)).
Proof.
  intros Hc. unfold series. revert before.
  induction l as [|r l IH]; intros before; cbn; [done|].
  rewrite same_group_set by done.
  destruct (same_group by_ k r) eqn:Hkr; cbn.
  - rewrite (IH (r :: before)). cbn. rewrite Hkr.
    by rewrite (same_group_filter by_ k r).
  - rewrite (IH (r :: before)). cbn. by rewrite Hkr.
Qed.

Lemma prefix_scan_lookup {B} (f : list Row → Row → B) before s i :
  prefix_scan f before s !! i
  = (λ r, f (reverse (take i s) ++ before) r) <$> s !! i.
Proof.
  revert before i. induction s as [|x s IH]; intros before [|i];
    try done.
  change (prefix_scan f (x :: before) s !! i
          = (λ r, f (reverse (x :: take i s) ++ before) r) <$> s !! i).
  rewrite IH. by rewrite reverse_cons, <- app_assoc.
Qed.

Lemma prefix_scan_length {B} (f : list Row → Row → B) before s :
  length (prefix_scan f before s) = length s.
Proof. revert before. induction s as [|x s IH]; intros; cbn; [done|]. by rewrite IH. Qed.

(** The row at position [i] of a group, with its group-wise cell. *)
Lemma series_scan_lookup {B} c (f : list Row → Row → B) (g : B → cell)
    (s : list Row) i r :
  zip_with (λ r v, set c v r) s (g <$> prefix_scan f [] s) !! i = Some r →
  ∃ r0, s !! i = Some r0
        ∧ r = set c (g (f (reverse (take i s)) r0)) r0.
Proof.
  rewrite lookup_zip_with, list_lookup_fmap, prefix_scan_lookup.
  destruct (s !! i) as [r0|]; cbn; [|done].
  rewrite app_nil_r. intros [= <-]. eauto.
Qed.

Lemma reverse_take_S {A} (l : list A) j x :
  l !! j = Some x → reverse (take (S j) l) = x :: reverse (take j l).
Proof.
  intros Hj. rewrite (take_S_r l j x Hj). by rewrite reverse_app.
Qed.

End GroupFacts.

Import GroupFacts.

(* --------------------------------------------------------------------- *)
(** ** The growth indicators *)
(* --------------------------------------------------------------------- *)

Module EnrichFacts.

Lemma value_set_ne c c' v r : c ≠ c' → value c (set c' v r) = value c r.
Proof. intros Hne. unfold value. by rewrite get_set_ne. Qed.

Lemma zip_with_set_values c c' (l : list Row) (vs : list cell) :
  c ≠ c' → length vs = length l →
  value c <$> zip_with (λ r v, set c' v r) l vs = value c <$> l.
Proof.
  intros Hne. revert vs. induction l as [|r l IH]; intros [|v vs] Hlen;
    cbn in *; try done.
  rewrite value_set_ne by done. rewrite IH; [done|lia].
Qed.

Lemma group_scan_length {B} by_ (f : list Row → Row → B) before l :
  length (group_scan by_ f before l) = length l.
Proof.
  revert before. induction l as [|r l IH]; intros; cbn; [done|].
  by rewrite IH.
Qed.

(** The two group-wise functions look at the measurements only. *)
Lemma diff_in_group_values c e e' r r' :
  value c <$> e = value c <$> e' → value c r = value c r' →
  diff_in_group c e r = diff_in_group c e' r'.
Proof.
  intros He Hr. destruct e as [|p e], e' as [|p' e']; try done. cbn in *.
  injection He as Hp _. by rewrite Hp, Hr.
Qed.

Lemma ffill_values c e e' :
  value c <$> e = value c <$> e' → ffill c e = ffill c e'.
Proof.
  unfold ffill. revert e'.
  induction e as [|p e IH]; intros [|p' e'] He; try done. cbn in *.
  injection He as Hp He. rewrite Hp.
  destruct (isnan (value c p')); cbn; [by apply IH|done].
Qed.

Lemma pct_change_in_group_values c e e' r r' :
  value c <$> e = value c <$> e' → value c r = value c r' →
  pct_change_in_group c e r = pct_change_in_group c e' r'.
Proof.
  intros He Hr. unfold pct_change_in_group.
  rewrite (ffill_values c e e' He), Hr.
  by destruct e as [|p e], e' as [|p' e'].
Qed.

(** In the enriched rows every series carries the differences and the
    percent changes computed on that series alone. *)
Lemma with_growth_indicators_series (sorted : list Row) k i r :
  series ["tpu"; "reactor"] k (with_growth_indicators sorted) !! i = Some r →
  let s := series ["tpu"; "reactor"] k (with_growth_indicators sorted) in
  get "density_change" r
    = VNum (diff_in_group "algae_density" (reverse (take i s)) r)
  ∧ get "density_change_pct" r
    = VNum (mul (pct_change_in_group "algae_density" (reverse (take i s)) r)
                (Fin 100)).
Proof.
  intros Hr s. unfold with_growth_indicators in *.
  set (by_ := ["tpu"; "reactor"]) in *.
  set (f1 := diff_in_group "algae_density") in *.
  set (f2 := pct_change_in_group "algae_density") in *.
  set (h := (λ x, VNum (mul x (Fin 100)))) in *.
  set (rows1 := (zip_with _ sorted (VNum <$> _))) in *.
  assert (("density_change" ∉ by_) ∧ ("density_change_pct" ∉ by_)) as [N1 N2].
  { unfold by_. split; intros Hin;
      repeat (apply elem_of_cons in Hin as [?|Hin]; [done|]);
      by apply elem_of_nil in Hin. }
  pose proof (series_group_scan by_ k "density_change_pct" f2 h [] rows1 N2)
    as E2.
  pose proof (series_group_scan by_ k "density_change" f1 VNum [] sorted N1)
    as E1.
  fold rows1 in E1. cbn [series List.filter] in E1, E2.
  change (List.filter (same_group by_ k) ?l) with (series by_ k l) in E1, E2.
  set (s0 := series by_ k sorted) in *.
  set (s1 := series by_ k rows1) in *.
  fold s in E2.
  assert (value "algae_density" <$> s1 = value "algae_density" <$> s0) as V1.
  { rewrite E1. apply zip_with_set_values; [done|].
    by rewrite length_fmap, prefix_scan_length. }
  assert (value "algae_density" <$> s = value "algae_density" <$> s1) as V2.
  { rewrite E2. apply zip_with_set_values; [done|].
    by rewrite length_fmap, prefix_scan_length. }
  assert (∀ (a b : list Row), value "algae_density" <$> a
            = value "algae_density" <$> b →
          value "algae_density" <$> reverse (take i a)
            = value "algae_density" <$> reverse (take i b)) as Hpre.
  { intros a b Hab. by rewrite !fmap_reverse, !fmap_take, Hab. }
  fold s in Hr. rewrite E2 in Hr.
  apply series_scan_lookup in Hr as (r1 & Hr1 & ->).
  pose proof Hr1 as Hr1'. rewrite E1 in Hr1'.
  apply series_scan_lookup in Hr1' as (r0 & Hr0 & Er1).
  split.
  - rewrite get_set_ne by done. rewrite Er1 at 1. rewrite get_set_eq.
    f_equal. apply diff_in_group_values.
    + apply Hpre. by rewrite V2, V1.
    + rewrite value_set_ne by done. rewrite Er1.
      by rewrite value_set_ne.
  - rewrite get_set_eq. unfold h. do 2 f_equal.
    apply pct_change_in_group_values.
    + apply Hpre. by rewrite V2.
    + by rewrite value_set_ne.
Qed.

End EnrichFacts.

Import EnrichFacts.

Module EnrichRun.

Lemma mapM_fmap {A B} (f : A → option B) (g : A → B) (l : list A) :
  Forall (λ x, f x = Some (g x)) l → mapM f l = Some (g <$> l).
Proof.
  induction 1 as [|x l Hx _ IH]; cbn; [done|]. by rewrite Hx, IH.
Qed.

Lemma groupby_diff_Some by_ c df v :
  groupby_diff by_ c df = Some v →
  v = group_scan by_ (diff_in_group c) [] (rows df).
Proof.
  unfold groupby_diff. destruct (has_columns by_ df); [|done].
  destruct (numeric c df); cbn; [|done]. by intros [= <-].
Qed.

Lemma groupby_pct_change_Some by_ c df v :
  groupby_pct_change by_ c df = Some v →
  v = group_scan by_ (pct_change_in_group c) [] (rows df).
Proof.
  unfold groupby_pct_change. destruct (has_columns by_ df); [|done].
  destruct (numeric c df); cbn; [|done]. by intros [= <-].
Qed.

Lemma sort_values_Some by_ df out :
  sort_values by_ df = Some out →
  out = mkFrame (columns df) (stable_sort (row_leb by_) (rows df)).
Proof.
  unfold sort_values. destruct (_ && _); [|done]. by intros [= <-].
Qed.

(** When the enricher runs through, its rows are the rows in series order
    with the growth indicators attached. *)
Lemma add_derived_columns_steps_rows df out :
  add_derived_columns_steps df = Some out →
  ∃ sorted, rows out = with_growth_indicators sorted
            ∧ Sorted (λ x y, row_leb ["tpu"; "reactor"; "date"] x y = true)
                     sorted.
Proof.
  unfold add_derived_columns_steps. intros Hs.
  destruct (assign_dt_field "year" _ df) as [d1|]; [cbn in Hs|done].
  destruct (assign_dt_field "month" _ d1) as [d2|]; [cbn in Hs|done].
  destruct (assign_dt_field "day" _ d2) as [d3|]; [cbn in Hs|done].
  destruct (assign_dt_field "day_of_week" _ d3) as [d4|]; [cbn in Hs|done].
  destruct (assign_dt_field "week_of_year" _ d4) as [d5|]; [cbn in Hs|done].
  destruct (numeric "algae_density" d5) as [density|]; [cbn in Hs|done].
  destruct (sort_values _ _) as [d6|] eqn:E6; [cbn in Hs|done].
  destruct (groupby_diff _ _ d6) as [change|] eqn:E7; [cbn in Hs|done].
  destruct (groupby_pct_change _ _ _) as [pct|] eqn:E8; [cbn in Hs|done].
  injection Hs as <-.
  apply groupby_diff_Some in E7 as ->.
  apply groupby_pct_change_Some in E8 as ->.
  apply sort_values_Some in E6 as ->.
  eexists. split; [reflexivity|]. apply stable_sort_Sorted, row_leb_total.
Qed.

(** *** The enricher on a frame of measurement records *)

Lemma measurement_record_set c v r :
  c ∉ required_columns → measurement_record r →
  measurement_record (set c v r).
Proof.
  intros Hc ((t & Ht) & (a & Ha & ?) & (b & Hb & ?) & (d & Hd & ?)).
  assert (∀ k, k ∈ required_columns → c ≠ k) as Hne
    by (intros k Hk ->; done).
  unfold measurement_record. rewrite !cells_set.
  rewrite !lookup_insert_ne
    by (apply Hne; unfold required_columns;
        repeat first [apply list_elem_of_here|apply list_elem_of_further]).
  rewrite Ht, Ha, Hb, Hd. repeat split; eauto.
Qed.

Lemma has_column_add_label c c' cs l l' :
  has_column c (mkFrame cs l) = true →
  has_column c (mkFrame (add_label c' cs) l') = true.
Proof.
  unfold has_column, add_label. cbn. rewrite !bool_decide_eq_true.
  intros Hc. destruct (bool_decide (c' ∈ cs)); [done|].
  apply elem_of_app. by left.
Qed.

Lemma typed_frame_set_column c (g : Row → cell) df :
  c ∉ required_columns → typed_frame df →
  typed_frame (set_column c (g <$> rows df) df).
Proof.
  intros Hc [Hcols Hrows]. unfold set_column. rewrite zip_with_set_map.
  split.
  - unfold has_columns in *. rewrite forallb_forall in *. intros k Hk.
    destruct df as [cs l]. apply has_column_add_label with (l := l).
    by apply Hcols.
  - cbn. apply Forall_fmap. eapply Forall_impl; [exact Hrows|].
    intros r Hr. by apply measurement_record_set.
Qed.

Lemma typed_frame_has_column c df :
  typed_frame df → c ∈ required_columns → has_column c df = true.
Proof. intros [Hc _] Hin. by eapply has_columns_elem. Qed.

Lemma dt_accessor_typed df :
  typed_frame df → dt_accessor "date" df = Some (date_of <$> rows df).
Proof.
  intros Ht. unfold dt_accessor, column.
  rewrite (typed_frame_has_column "date" df Ht)
    by (unfold required_columns; apply list_elem_of_here).
  cbn. rewrite (mapM_fmap _ (λ v, match v with VTime t => Some t | _ => None end)).
  - by rewrite <- list_fmap_compose.
  - apply Forall_fmap. destruct Ht as [_ Hrows].
    eapply Forall_impl; [exact Hrows|]. intros r Hr. cbn.
    apply measurement_record_get in Hr as ((t & ->) & _). done.
Qed.

Lemma numeric_typed df :
  typed_frame df →
  numeric "algae_density" df = Some (value "algae_density" <$> rows df).
Proof.
  intros Ht. unfold numeric, column.
  rewrite (typed_frame_has_column "algae_density" df Ht)
    by (unfold required_columns;
        repeat first [apply list_elem_of_here|apply list_elem_of_further]).
  cbn. rewrite (mapM_fmap _ (λ v, match v with VNum x => x | _ => NaN end)).
  - by rewrite <- list_fmap_compose.
  - apply Forall_fmap. destruct Ht as [_ Hrows].
    eapply Forall_impl; [exact Hrows|]. intros r Hr. cbn.
    apply measurement_record_get in Hr as (_ & _ & _ & (q & -> & _)). done.
Qed.

Lemma assign_dt_field_typed c field df :
  c ∉ required_columns → typed_frame df →
  ∃ df', assign_dt_field c field df = Some df' ∧ typed_frame df'.
Proof.
  intros Hc Ht. unfold assign_dt_field.
  rewrite dt_accessor_typed by done. cbn.
  eexists. split; [reflexivity|].
  rewrite <- list_fmap_compose. by apply typed_frame_set_column.
Qed.

Lemma not_required c :
  bool_decide (c ∈ required_columns) = false → c ∉ required_columns.
Proof. by intros Hc%bool_decide_eq_false. Qed.

(** On a frame of measurement records the enricher runs through. *)
Lemma add_derived_columns_steps_typed df :
  typed_frame df →
  ∃ out sorted,
    add_derived_columns_steps df = Some out
    ∧ rows out = with_growth_indicators sorted
    ∧ Sorted (λ x y, row_leb ["tpu"; "reactor"; "date"] x y = true) sorted
    ∧ Forall measurement_record sorted.
Proof.
  intros Ht. unfold add_derived_columns_steps.
  destruct (assign_dt_field_typed "year" Calendar.year df) as (d1 & -> & T1);
    [by apply not_required|done|]. cbn.
  destruct (assign_dt_field_typed "month" Calendar.month d1) as (d2 & -> & T2);
    [by apply not_required|done|]. cbn.
  destruct (assign_dt_field_typed "day" Calendar.day d2) as (d3 & -> & T3);
    [by apply not_required|done|]. cbn.
  destruct (assign_dt_field_typed "day_of_week" Calendar.dayofweek d3)
    as (d4 & -> & T4); [by apply not_required|done|]. cbn.
  destruct (assign_dt_field_typed "week_of_year" Calendar.isoweek d4)
    as (d5 & -> & T5); [by apply not_required|done|]. cbn.
  rewrite (numeric_typed d5 T5). cbn.
  rewrite <- list_fmap_compose.
  pose proof (typed_frame_set_column "density_category"
                (category_cell ∘ value "algae_density") d5
                (not_required "density_category" eq_refl) T5) as T6.
  set (d6 := set_column "density_category" _ d5) in *.
  assert (∀ cs, cs ⊆ required_columns → ∀ l,
            has_columns cs (mkFrame (columns d6) l) = true) as Hcols.
  { intros cs Hsub l. unfold has_columns. apply forallb_forall.
    intros c Hin%list_elem_of_In.
    apply (typed_frame_has_column c d6 T6). by apply Hsub. }
  assert (["tpu"; "reactor"; "date"] ⊆ required_columns) as S3.
  { intros c Hc. unfold required_columns.
    repeat (apply elem_of_cons in Hc as [->|Hc];
            [repeat first [apply list_elem_of_here|apply list_elem_of_further]|]).
    by apply elem_of_nil in Hc. }
  assert (["tpu"; "reactor"] ⊆ required_columns) as S2.
  { intros c Hc. apply S3.
    repeat (apply elem_of_cons in Hc as [->|Hc];
            [repeat first [apply list_elem_of_here|apply list_elem_of_further]|]).
    by apply elem_of_nil in Hc. }
  unfold sort_values.
  destruct d6 as [cs6 l6] eqn:E6. cbn [columns rows] in *.
  rewrite (Hcols _ S3 l6).
  destruct T6 as [C6 R6]. cbn [rows] in R6.
  assert (forallb (λ c, homogeneous (get c <$> l6)) ["tpu"; "reactor"; "date"]
          = true) as ->.
  { cbn [forallb].
    rewrite !measurement_records_homogeneous
      by first [exact R6
               |repeat first [apply list_elem_of_here
                             |apply list_elem_of_further]].
    done. }
  cbn [andb mbind option_bind columns rows].
  set (sorted := stable_sort _ l6).
  assert (Forall measurement_record sorted) as Rs.
  { unfold sorted. by rewrite stable_sort_Permutation. }
  unfold groupby_diff. rewrite (Hcols _ S2 sorted).
  rewrite (numeric_typed (mkFrame cs6 sorted)) by (by split). cbn.
  unfold groupby_pct_change.
  match goal with
  | |- context [has_columns ?cs (set_column ?c ?v ?d)] =>
      assert (typed_frame (set_column c v d)) as T8
  end.
  { pose proof (typed_frame_set_column "density_change"
       (λ r, VNum (diff_in_group "algae_density" [] r))
       (mkFrame cs6 sorted) (not_required "density_change" eq_refl)) as T.
    unfold set_column in *. cbn [columns rows] in *.
    split; [by apply T|]. cbn [rows].
    clear -Rs. unfold sorted in *. 
    generalize (@nil Row).
    induction Rs as [|r l Hr _ IH]; intros before; cbn; [done|].
    constructor; [|apply IH].
    apply measurement_record_set; [by apply not_required|done]. }
  assert (has_columns ["tpu"; "reactor"]
            (set_column "density_change"
               (VNum <$> group_scan ["tpu"; "reactor"]
                           (diff_in_group "algae_density") [] sorted)
               (mkFrame cs6 sorted)) = true) as ->.
  { apply forallb_forall. intros c Hin%list_elem_of_In.
    apply (typed_frame_has_column c _ T8). by apply S2. }
  rewrite (numeric_typed _ T8). cbn.
  eexists _, sorted. split; [reflexivity|]. split; [done|].
  split; [|done]. apply stable_sort_Sorted, row_leb_total.
Qed.

End EnrichRun.

Import EnrichRun.

Module OrderFacts.

(** The order of two measurement records is the lexicographic order of
    (unit, sub-unit, date). *)
Lemma row_leb_measurement_records x y a b t a' b' t' :
  get "tpu" x = VNum (Fin a) → get "reactor" x = VNum (Fin b) →
  get "date" x = VTime t →
  get "tpu" y = VNum (Fin a') → get "reactor" y = VNum (Fin b') →
  get "date" y = VTime t' →
  row_leb ["tpu"; "reactor"; "date"] x y = true ↔
  (a < a')%Q ∨ (a == a' ∧ ((b < b')%Q ∨ (b == b' ∧ t ≤ t')))%Q.
Proof.
  intros H1 H2 H3 H4 H5 H6. unfold row_leb, row_compare.
  rewrite H1, H2, H3, H4, H5, H6. cbn.
  destruct (Qcompare_spec a a'), (Qcompare_spec b b'), (Z.compare_spec t t');
    split; try done; intros; try lia; try lra;
    try (by (left; lra)); try (right; split; [lra|]);
    try (by (left; lra)); try (right; split; [lra|lia]);
    exfalso; repeat match goal with
    | H : _ ∨ _ |- _ => destruct H
    | H : _ ∧ _ |- _ => destruct H
    end; try lra; try lia.
Qed.

Lemma series_order_trans x y z :
  measurement_record x → measurement_record y → measurement_record z →
  series_order x y → series_order y z → series_order x z.
Proof.
  intros ((t1 & T1) & (a1 & A1 & _) & (b1 & B1 & _) & _)%measurement_record_get
         ((t2 & T2) & (a2 & A2 & _) & (b2 & B2 & _) & _)%measurement_record_get
         ((t3 & T3) & (a3 & A3 & _) & (b3 & B3 & _) & _)%measurement_record_get.
  rewrite (row_leb_measurement_records x y a1 b1 t1 a2 b2 t2) by done.
  rewrite (row_leb_measurement_records y z a2 b2 t2 a3 b3 t3) by done.
  rewrite (row_leb_measurement_records x z a1 b1 t1 a3 b3 t3) by done.
  intros [?|[? [?|[? ?]]]] [?|[? [?|[? ?]]]];
    first [left; lra
          |right; split; [lra|];
           first [left; lra|right; split; [lra|lia]]].
Qed.

(** A list of measurement records in order is in order pairwise. *)
Lemma Sorted_measurement_records (l : list Row) :
  Forall measurement_record l → Sorted series_order l →
  StronglySorted series_order l.
Proof.
  intros Hm Hs. induction Hs as [|x l Hs IH Hx]; [constructor|].
  apply Forall_cons in Hm as [Hmx Hml].
  specialize (IH Hml). constructor; [done|].
  destruct Hx as [|y l Hxy]; [constructor|].
  apply Forall_cons in Hml as [Hmy Hml].
  apply StronglySorted_inv in IH as [_ Hy].
  constructor; [done|].
  apply Forall_forall. intros z Hz.
  eapply (series_order_trans x y z); try done.
  - by eapply (proj1 (Forall_forall _ _) Hml).
  - by eapply (proj1 (Forall_forall _ _) Hy).
Qed.

Lemma StronglySorted_lookup {A} (R : relation A) l i j x y :
  StronglySorted R l → l !! i = Some x → l !! j = Some y → (i < j)%nat →
  R x y.
Proof.
  intros Hl. revert i j. induction Hl as [|z l Hl IH Hz]; intros i j Hi Hj Hij;
    [done|].
  destruct j as [|j]; [lia|]. cbn in Hj. destruct i as [|i].
  - injection Hi as <-. eapply (proj1 (Forall_forall _ _) Hz).
    by eapply list_elem_of_lookup_2.
  - cbn in Hi. apply (IH i j); [done..|lia].
Qed.

Lemma StronglySorted_filter_bool {A} (R : relation A) (p : A → bool) l :
  StronglySorted R l → StronglySorted R (List.filter p l).
Proof.
  induction 1 as [|x l Hl IH Hx]; cbn; [constructor|].
  destruct (p x); [|done]. constructor; [done|].
  apply Forall_forall. intros y [Hy _]%elem_of_filter_bool.
  by eapply (proj1 (Forall_forall _ _) Hx).
Qed.

Lemma row_compare_keys by_ r1 r2 r1' r2' :
  (∀ c, c ∈ by_ → get c r1 = get c r1') →
  (∀ c, c ∈ by_ → get c r2 = get c r2') →
  row_compare by_ r1 r2 = row_compare by_ r1' r2'.
Proof.
  induction by_ as [|c cs IH]; intros H1 H2; cbn; [done|].
  rewrite (H1 c), (H2 c) by left.
  rewrite IH; [done|intros; apply H1; by right|intros; apply H2; by right].
Qed.

(** Attaching a column that is not a key keeps the rows in order. *)
Lemma Sorted_zip_with_set by_ c (l : list Row) (vs : list cell) :
  c ∉ by_ → length vs = length l →
  Sorted (λ x y, row_leb by_ x y = true) l →
  Sorted (λ x y, row_leb by_ x y = true)
         (zip_with (λ r v, set c v r) l vs).
Proof.
  intros Hc Hlen Hs. revert vs Hlen.
  assert (∀ k r v, k ∈ by_ → get k r = get k (set c v r)) as Hget.
  { intros k r v Hk. rewrite get_set_ne; [done|]. intros ->. done. }
  induction Hs as [|x l Hs IH Hx]; intros [|v vs] Hlen; cbn in *;
    try done; try (by constructor).
  constructor; [apply IH; lia|].
  destruct Hx as [|y l Hxy]; destruct vs as [|w vs]; cbn in *;
    try done; constructor.
  unfold row_leb in *.
  rewrite <- (row_compare_keys by_ x y); [done|by intros; apply Hget..].
Qed.

Lemma Forall_zip_with_set (P : Row → Prop) c (l : list Row) (vs : list cell) :
  (∀ r v, P r → P (set c v r)) → Forall P l →
  Forall P (zip_with (λ r v, set c v r) l vs).
Proof.
  intros Hset Hl. revert vs.
  induction Hl as [|x l Hx _ IH]; intros [|v vs]; cbn; try constructor;
    auto.
Qed.

Lemma with_growth_indicators_order (sorted : list Row) :
  Forall measurement_record sorted → Sorted series_order sorted →
  Forall measurement_record (with_growth_indicators sorted)
  ∧ StronglySorted series_order (with_growth_indicators sorted).
Proof.
  intros Hm Hs.
  assert (Forall measurement_record (with_growth_indicators sorted)) as Hm'.
  { unfold with_growth_indicators.
    apply Forall_zip_with_set;
      [intros; apply measurement_record_set; [by apply not_required|done]|].
    apply Forall_zip_with_set;
      [intros; apply measurement_record_set; [by apply not_required|done]|].
    done. }
  split; [done|]. apply Sorted_measurement_records; [done|].
  unfold with_growth_indicators.
  apply Sorted_zip_with_set.
  - intros Hin. repeat (apply elem_of_cons in Hin as [?|Hin]; [done|]).
    by apply elem_of_nil in Hin.
  - rewrite length_fmap, group_scan_length. done.
  - apply Sorted_zip_with_set; [|by rewrite length_fmap, group_scan_length|done].
    intros Hin. repeat (apply elem_of_cons in Hin as [?|Hin]; [done|]).
    by apply elem_of_nil in Hin.
Qed.

End OrderFacts.

Import OrderFacts.


Lemma Qsign_zero q : (q == 0)%Q → Qsign q = Eq.
Proof.
  unfold Qeq, Qsign. cbn. intros Hq. rewrite Z.mul_1_r in Hq. by rewrite Hq.
Qed.

Lemma Qsign_pos q : (0 < q)%Q → Qsign q = Gt.
Proof.
  unfold Qlt, Qsign. cbn. intros Hq. rewrite Z.mul_1_r in Hq.
  by apply Z.compare_gt_iff.
Qed.

Lemma Qsign_Eq q : Qsign q = Eq → (q == 0)%Q.
Proof.
  unfold Qeq, Qsign. cbn. intros Hq%Z.compare_eq. rewrite Z.mul_1_r. done.
Qed.


Section EnrichTheorems.
Context `{Coercers}.

Lemma clean_typed_frame t :
  structurally_valid t → typed_frame (clean_flowcam_data t).
Proof.
  intros Hv. rewrite clean_flowcam_data_valid by done. split.
  - exact Hv.
  - apply Forall_forall. intros r. apply cleaned_rows_measurement.
Qed.


End EnrichTheorems.

(* --------------------------------------------------------------------- *)
(** ** The statistics *)
(* --------------------------------------------------------------------- *)

Module StatsFacts.
Import Exact.

Local Open Scope Q_scope.

Lemma Qsum_ext (l l' : list Q) : Forall2 Qeq l l' → Qsum l == Qsum l'.
Proof.
  induction 1 as [|x y l l' Hxy _ IH]; [done|].
  change (x + Qsum l == y + Qsum l'). by rewrite Hxy, IH.
Qed.

Lemma Qsum_nonneg (l : list Q) : Forall (λ q, 0 <= q) l → 0 <= Qsum l.
Proof.
  induction 1 as [|x l Hx _ IH]; [done|].
  change (0 <= x + Qsum l). lra.
Qed.

Lemma sum_Fin (l : list Q) :
  ∃ s, Stats.sum (Fin <$> l) = Fin s ∧ s == Qsum l.
Proof.
  induction l as [|x l (s & Hs & Es)]; cbn.
  - by exists 0.
  - unfold Stats.sum in Hs. rewrite Hs. cbn. eexists. split; [done|].
    by rewrite Qred_correct, Es.
Qed.

Lemma Qsign_of_nat n : (0 < n)%nat → Qsign (inject_Z (Z.of_nat n)) = Gt.
Proof. intros Hn. unfold Qsign. cbn. apply Z.compare_gt_iff. lia. Qed.

Lemma mean_nonempty (l : list num) :
  l ≠ [] → Stats.mean l = div (Stats.sum l) (of_nat (length l)).
Proof. by destruct l. Qed.

Lemma mean_Fin (l : list Q) :
  l ≠ [] → ∃ m, Stats.mean (Fin <$> l) = Fin m ∧ m == Qmean l.
Proof.
  intros Hl. destruct (sum_Fin l) as (s & Hs & Es).
  rewrite mean_nonempty by (by destruct l).
  rewrite Hs, length_fmap. unfold div, of_nat.
  rewrite Qsign_of_nat by (destruct l; [done|cbn; lia]).
  eexists. split; [done|]. rewrite Qred_correct, Es. done.
Qed.

Lemma var_Fin (l : list Q) :
  (2 <= length l)%nat →
  ∃ v, Stats.var 1 (Fin <$> l) = Fin v ∧ v == bessel_variance l ∧ 0 <= v.
Proof.
  intros Hlen. unfold Stats.var. rewrite length_fmap.
  destruct (Nat.leb_spec (length l) 1) as [?|_]; [lia|].
  destruct (mean_Fin l) as (m & -> & Em); [intros ->; cbn in Hlen; lia|].
  rewrite <- list_fmap_compose.
  assert ((λ x, Stats.square (sub x (Fin m))) ∘ Fin
          = Fin ∘ (λ q, Qred (Qred (q - m) * Qred (q - m)))) as -> by done.
  rewrite list_fmap_compose.
  destruct (sum_Fin ((λ q, Qred (Qred (q - m) * Qred (q - m))) <$> l))
    as (s & -> & Es).
  unfold div, of_nat. rewrite Qsign_of_nat by lia.
  assert (s == Qsum ((λ q, (q - Qmean l) * (q - Qmean l)) <$> l)) as Es'.
  { rewrite Es. apply Qsum_ext. apply Forall2_fmap, Forall_Forall2_diag.
    apply Forall_forall. intros q _. cbn. by rewrite !Qred_correct, Em. }
  assert (inject_Z (Z.of_nat (length l - 1))
          == inject_Z (Z.of_nat (length l) - 1)) as En.
  { by rewrite Nat2Z.inj_sub, Z.sub_1_r, Z.sub_1_r by lia. }
  eexists. split; [done|]. split.
  - rewrite Qred_correct. unfold bessel_variance. by rewrite Es', En.
  - rewrite Qred_correct. apply Qle_shift_div_l.
    + rewrite En. unfold Qlt. cbn. lia.
    + rewrite Qmult_0_l, Es'. apply Qsum_nonneg, Forall_fmap, Forall_forall.
      intros q _. cbn. generalize (q - Qmean l). intros z.
      unfold Qle, Qmult. cbn. nia.
Qed.

Lemma std_Fin `{Sqrt} (l : list Q) :
  (2 <= length l)%nat →
  ∃ v, Stats.std (Fin <$> l) = Fin (fsqrt v) ∧ v == bessel_variance l.
Proof.
  intros Hlen. destruct (var_Fin l Hlen) as (v & Hv & Ev & Hnn).
  exists v. split; [|done]. unfold Stats.std. rewrite Hv. cbn.
  apply Qle_bool_iff in Hnn. by rewrite Hnn.
Qed.

Lemma foldl_min_Fin (l : list Q) (m0 : Q) :
  ∃ m, foldl (λ m y, if ltb y m then y else m) (Fin m0) (Fin <$> l) = Fin m
       ∧ m ∈ m0 :: l ∧ ∀ q, q ∈ m0 :: l → m <= q.
Proof.
  revert m0. induction l as [|x l IH]; intros m0; cbn.
  - exists m0. split; [done|]. split; [left|].
    intros q ->%list_elem_of_singleton. lra.
  - destruct (Qle_bool m0 x) eqn:E; cbn.
    + apply Qle_bool_iff in E.
      destruct (IH m0) as (m & -> & Hin & Hle). exists m.
      split; [done|]. split.
      * apply elem_of_cons in Hin as [->|Hin]; [left|by do 2 right].
      * intros q [->|[->|Hq]%elem_of_cons]%elem_of_cons.
        -- apply Hle. left.
        -- eapply Qle_trans; [|exact E]. apply Hle. left.
        -- apply Hle. by right.
    + apply FloatFacts.Qle_bool_false in E.
      destruct (IH x) as (m & -> & Hin & Hle). exists m.
      split; [done|]. split.
      * by right.
      * intros q [->|Hq]%elem_of_cons; [|by apply Hle].
        apply Qlt_le_weak. eapply Qle_lt_trans; [|exact E]. apply Hle. left.
Qed.

Lemma foldl_max_Fin (l : list Q) (m0 : Q) :
  ∃ m, foldl (λ m y, if ltb m y then y else m) (Fin m0) (Fin <$> l) = Fin m
       ∧ m ∈ m0 :: l ∧ ∀ q, q ∈ m0 :: l → q <= m.
Proof.
  revert m0. induction l as [|x l IH]; intros m0; cbn.
  - exists m0. split; [done|]. split; [left|].
    intros q ->%list_elem_of_singleton. lra.
  - destruct (Qle_bool x m0) eqn:E; cbn.
    + apply Qle_bool_iff in E.
      destruct (IH m0) as (m & -> & Hin & Hle). exists m.
      split; [done|]. split.
      * apply elem_of_cons in Hin as [->|Hin]; [left|by do 2 right].
      * intros q [->|[->|Hq]%elem_of_cons]%elem_of_cons.
        -- apply Hle. left.
        -- eapply Qle_trans; [exact E|]. apply Hle. left.
        -- apply Hle. by right.
    + apply FloatFacts.Qle_bool_false in E.
      destruct (IH x) as (m & -> & Hin & Hle). exists m.
      split; [done|]. split.
      * by right.
      * intros q [->|Hq]%elem_of_cons; [|by apply Hle].
        apply Qlt_le_weak. eapply Qlt_le_trans; [exact E|]. apply Hle. left.
Qed.

Lemma min_Fin (l : list Q) :
  l ≠ [] →
  ∃ m, Stats.min (Fin <$> l) = Fin m ∧ m ∈ l ∧ ∀ q, q ∈ l → m <= q.
Proof. destruct l as [|x l]; [done|]. intros _. apply foldl_min_Fin. Qed.

Lemma max_Fin (l : list Q) :
  l ≠ [] →
  ∃ m, Stats.max (Fin <$> l) = Fin m ∧ m ∈ l ∧ ∀ q, q ∈ l → q <= m.
Proof. destruct l as [|x l]; [done|]. intros _. apply foldl_max_Fin. Qed.

(** *** Rounding *)

Lemma round_half_even_spec (y : Q) :
  let n := round_half_even y in
  (- (1 # 2) <= y - inject_Z n <= 1 # 2)
  ∧ ((y - inject_Z n == 1 # 2 ∨ y - inject_Z n == - (1 # 2))
     → Z.even n = true).
Proof.
  unfold round_half_even.
  pose proof (Qfloor_le y) as Hlo. pose proof (Qlt_floor y) as Hhi.
  set (f := Qfloor y) in *.
  assert (inject_Z (f + 1) == inject_Z f + 1) as E1
    by (rewrite inject_Z_plus; reflexivity).
  rewrite E1 in Hhi.
  destruct (Qcompare_spec (y - inject_Z f) (1 # 2)) as [He|Hl|Hg]; cbn zeta.
  - destruct (Z.even f) eqn:Ev.
    + split; [lra|done].
    + rewrite E1. split; [lra|]. intros _.
      rewrite Z.even_add, Ev. done.
  - split; [lra|]. intros [?|?]; lra.
  - rewrite E1. split; [lra|]. intros [?|?]; lra.
Qed.

Lemma scale_pos d : 0 < inject_Z (10 ^ Z.of_nat d).
Proof.
  assert (0 < 10 ^ Z.of_nat d)%Z by (apply Z.pow_pos_nonneg; lia).
  unfold Qlt, inject_Z. cbn [Qnum Qden]. lia.
Qed.

Lemma Qround_to_spec d q : rounds_half_even d q (Qround_to d q).
Proof.
  unfold rounds_half_even, Qround_to. cbn zeta.
  exists (round_half_even (q * inject_Z (10 ^ Z.of_nat d))).
  split; [apply Qred_correct|]. apply round_half_even_spec.
Qed.

Lemma rounds_half_even_proper d q q' r :
  q == q' → rounds_half_even d q r → rounds_half_even d q' r.
Proof.
  unfold rounds_half_even. cbn zeta.
  intros Hq (n & Hr & Hb & Ht). exists n. split; [done|].
  split.
  - by rewrite <- Hq.
  - intros Hc. apply Ht. by rewrite Hq.
Qed.

Lemma round_half_even_nonneg y : 0 <= y → (0 <= round_half_even y)%Z.
Proof.
  intros Hy. unfold round_half_even.
  assert (0 <= Qfloor y)%Z as Hf.
  { change 0%Z with (Qfloor 0). by apply Qfloor_resp_le. }
  destruct (_ ?= _); [destruct (Z.even _)|..]; lia.
Qed.

Lemma Qround_to_nonneg d q : 0 <= q → 0 <= Qround_to d q.
Proof.
  intros Hq. unfold Qround_to. rewrite Qred_correct.
  pose proof (scale_pos d) as Hs.
  apply Qle_shift_div_l; [done|]. rewrite Qmult_0_l.
  change 0 with (inject_Z 0). rewrite <- Zle_Qle.
  apply round_half_even_nonneg. by apply Qmult_le_0_compat; [|apply Qlt_le_weak].
Qed.

End StatsFacts.

Import StatsFacts.

(* --------------------------------------------------------------------- *)
(** ** The aggregator *)
(* --------------------------------------------------------------------- *)

Module AggregateFacts.

Lemma group_heads_elem by_ (l : list Row) k :
  k ∈ group_heads by_ l → k ∈ l ∧ same_group by_ k k = true.
Proof.
  induction l as [|r l IH]; cbn; [by intros ?%elem_of_nil|].
  destruct (same_group by_ r r) eqn:Hr.
  - intros [->|[Hk _]%elem_of_filter_bool]%elem_of_cons.
    + split; [left|done].
    + destruct (IH Hk). split; [by right|done].
  - intros Hk. destruct (IH Hk). split; [by right|done].
Qed.

Lemma group_heads_cover by_ (l : list Row) r :
  r ∈ l → same_group by_ r r = true →
  ∃ k, k ∈ group_heads by_ l ∧ same_group by_ k r = true.
Proof.
  induction l as [|x l IH]; [by intros ?%elem_of_nil|].
  intros [->|Hr]%elem_of_cons Hrr; cbn.
  - rewrite Hrr. exists x. split; [left|done].
  - destruct (IH Hr Hrr) as (k & Hk & Hkr).
    destruct (same_group by_ x x) eqn:Hxx; [|by exists k].
    destruct (same_group by_ x k) eqn:Hxk.
    + exists x. split; [left|]. by eapply same_group_trans.
    + exists k. split; [|done]. right.
      apply elem_of_filter_bool. by rewrite Hxk.
Qed.

Lemma filter_ext_bool {A} (p q : A → bool) l :
  (∀ x, p x = q x) → List.filter p l = List.filter q l.
Proof.
  intros Hpq. induction l as [|x l IH]; cbn; [done|]. by rewrite Hpq, IH.
Qed.

Lemma filter_none {A} (p : A → bool) l :
  (∀ x, p x = false) → List.filter p l = [].
Proof.
  intros Hp. induction l as [|x l IH]; cbn; [done|]. by rewrite Hp.
Qed.

Lemma filter_and_length {A} (p q : A → bool) l :
  (length (List.filter (λ x, p x && q x) l) <= length (List.filter q l))%nat.
Proof.
  induction l as [|x l IH]; cbn; [done|].
  destruct (p x), (q x); cbn; lia.
Qed.

(** No two heads are in the same group. *)
Lemma group_heads_distinct by_ (l : list Row) a :
  (length (List.filter (same_group by_ a) (group_heads by_ l)) <= 1)%nat.
Proof.
  induction l as [|x l IH]; cbn; [lia|].
  destruct (same_group by_ x x) eqn:Hxx; [|done]. cbn.
  rewrite filter_filter_bool.
  destruct (same_group by_ a x) eqn:Hax; cbn.
  - rewrite filter_none; [cbn; lia|]. intros y.
    destruct (same_group by_ x y) eqn:Hxy; cbn; [done|].
    destruct (same_group by_ a y) eqn:Hay; [|done].
    rewrite <- Hxy. symmetry. eapply same_group_trans; [|exact Hay].
    by rewrite same_group_sym.
  - etransitivity; [|exact IH]. apply filter_and_length.
Qed.

Lemma measurement_record_group r :
  measurement_record r → same_group group_keys r r = true.
Proof.
  intros ((t & Ht) & (a & Ha & _) & (b & Hb & _) & _)%measurement_record_get.
  unfold same_group, group_keys. cbn. rewrite Ht, Ha, Hb. cbn.
  by rewrite Z.eqb_refl, !Qeq_bool_refl.
Qed.

(** The group of a row is decided by its key cells. *)
Lemma same_group_keys by_ o k x :
  (∀ c, c ∈ by_ → get c o = get c k) →
  same_group by_ o x = same_group by_ k x
  ∧ same_group by_ x o = same_group by_ x k.
Proof.
  intros Hk. unfold same_group.
  induction by_ as [|c cs IH]; cbn; [done|].
  rewrite (Hk c) by left.
  destruct IH as [-> ->]; [intros; apply Hk; by right|]. done.
Qed.

Section WithSqrt.
Context `{Sqrt}.

Lemma aggregate_group_key k m c :
  c ∈ group_keys → get c (aggregate_group k m) = get c k.
Proof.
  unfold group_keys.
  intros [->|[->|[->|?%elem_of_nil]%elem_of_cons]%elem_of_cons]%elem_of_cons;
    by try done.
Qed.

Lemma calculate_daily_aggregates_typed df :
  typed_frame df →
  rows (calculate_daily_aggregates df)
  = relabel (group_row (rows df)
               <$> stable_sort (row_leb group_keys)
                     (group_heads group_keys (rows df))).
Proof.
  intros Ht. unfold calculate_daily_aggregates,
    calculate_daily_aggregates_steps.
  assert (has_columns group_keys df = true) as ->.
  { apply forallb_forall. intros c Hc%list_elem_of_In.
    apply (typed_frame_has_column c df Ht). unfold group_keys in Hc.
    unfold required_columns.
    repeat (apply elem_of_cons in Hc as [->|Hc];
            [repeat first [apply list_elem_of_here|apply list_elem_of_further]|]).
    by apply elem_of_nil in Hc. }
  by rewrite (numeric_typed df Ht).
Qed.

End WithSqrt.

End AggregateFacts.

Import AggregateFacts.

Module AggregateRows.
Import Exact.

Lemma filter_imap_length (p : Row → bool) (f : nat → Row → Row) (l : list Row) :
  (∀ i r, p (f i r) = p r) →
  length (List.filter p (imap f l)) = length (List.filter p l).
Proof.
  revert f. induction l as [|x l IH]; intros f Hf; [done|].
  change (imap f (x :: l)) with (f 0%nat x :: imap (f ∘ S) l).
  cbn [List.filter]. rewrite Hf.
  specialize (IH (f ∘ S) (λ i r, Hf (S i) r)).
  destruct (p x); cbn [length]; by rewrite IH.
Qed.

Lemma filter_Permutation_length {A} (p : A → bool) l l' :
  l ≡ₚ l' → length (List.filter p l) = length (List.filter p l').
Proof.
  induction 1 as [|x l l' _ IH|x y l|l1 l2 l3 _ IH1 _ IH2]; cbn;
    [done| |by destruct (p x), (p y)|congruence].
  destruct (p x); cbn; by rewrite IH.
Qed.

Lemma get_cells c r r' : cells r = cells r' → get c r = get c r'.
Proof. unfold get. by intros ->. Qed.

Lemma measurement_values (m : list Row) :
  Forall measurement_record m →
  List.filter (λ x, negb (isnan x)) (value "algae_density" <$> m)
  = Fin <$> (density_Q <$> m).
Proof.
  intros Hm.
  assert (value "algae_density" <$> m = Fin <$> (density_Q <$> m)) as ->.
  { rewrite <- list_fmap_compose. apply list_fmap_ext. intros i r Hr.
    apply list_elem_of_lookup_2 in Hr.
    apply (proj1 (Forall_forall _ _) Hm), measurement_record_get in Hr
      as (_ & _ & _ & (q & Hq & _)).
    cbn. unfold density_Q, value. by rewrite Hq. }
  apply filter_all, Forall_fmap, Forall_true. done.
Qed.

Section WithSqrt.
Context `{Sqrt}.

Lemma aggregate_group_cells k m :
  cells (aggregate_group k m) !! "measurement_count"
  = Some (VNum (of_nat (length (List.filter (λ x, negb (isnan x))
                                  (value "algae_density" <$> m)))))
  ∧ cells (aggregate_group k m) !! "std_density"
    = Some (VNum (round 4 (Stats.std (List.filter (λ x, negb (isnan x))
                                        (value "algae_density" <$> m)))))
  ∧ cells (aggregate_group k m) !! "max_density"
    = Some (VNum (round 4 (Stats.max (List.filter (λ x, negb (isnan x))
                                        (value "algae_density" <$> m)))))
  ∧ cells (aggregate_group k m) !! "min_density"
    = Some (VNum (round 4 (Stats.min (List.filter (λ x, negb (isnan x))
                                        (value "algae_density" <$> m)))))
  ∧ cells (aggregate_group k m) !! "avg_density"
    = Some (VNum (round 4 (Stats.mean (List.filter (λ x, negb (isnan x))
                                         (value "algae_density" <$> m))))).
Proof.
  unfold aggregate_group. cbn [cells].
  repeat split; by simplify_map_eq.
Qed.

(** One aggregated row for every group of a frame of measurement
    records. *)
Lemma one_row_per_group df r :
  typed_frame df → r ∈ rows df →
  length (series group_keys r (rows (calculate_daily_aggregates df)))
  = 1%nat.
Proof.
  intros Ht Hr. rewrite calculate_daily_aggregates_typed by done.
  unfold series, relabel.
  rewrite filter_imap_length; [|by intros; apply same_group_keys].
  rewrite filter_fmap_bool, length_fmap.
  rewrite (filter_ext_bool _ (same_group group_keys r));
    [|intros k; apply same_group_keys; intros c Hc;
      by apply aggregate_group_key].
  rewrite (filter_Permutation_length _ _ (group_heads group_keys (rows df)))
    by apply stable_sort_Permutation.
  pose proof (group_heads_distinct group_keys (rows df) r) as Hle.
  destruct Ht as [_ Hrows].
  pose proof (proj1 (Forall_forall _ _) Hrows r Hr) as Hm.
  destruct (group_heads_cover group_keys (rows df) r Hr
              (measurement_record_group r Hm)) as (k & Hk & Hkr).
  assert (k ∈ List.filter (same_group group_keys r)
                (group_heads group_keys (rows df))) as Hin.
  { apply elem_of_filter_bool. split; [done|]. by rewrite same_group_sym. }
  destruct (List.filter _ _) as [|? [|? ?]]; cbn in *;
    [by apply elem_of_nil in Hin|done|lia].
Qed.

(** Every aggregated row is the row of a group of the frame. *)
Lemma aggregated_row_group df o :
  typed_frame df → o ∈ rows (calculate_daily_aggregates df) →
  ∃ k, k ∈ rows df ∧ measurement_record k
       ∧ cells o = cells (group_row (rows df) k)
       ∧ series group_keys o (rows df) = series group_keys k (rows df)
       ∧ k ∈ series group_keys k (rows df).
Proof.
  intros Ht Ho. rewrite calculate_daily_aggregates_typed in Ho by done.
  apply elem_of_relabel in Ho as (o' & (k & -> & Hk)%list_elem_of_fmap & Hc).
  apply stable_sort_elem_of, group_heads_elem in Hk as [Hk Hkk].
  exists k. destruct Ht as [_ Hrows].
  split; [done|]. split; [by apply (proj1 (Forall_forall _ _) Hrows)|].
  split; [done|]. split.
  - unfold series. apply filter_ext_bool. intros x.
    apply same_group_keys. intros c Hin.
    rewrite (get_cells c o (group_row (rows df) k) Hc).
    by apply aggregate_group_key.
  - apply elem_of_filter_bool. by split.
Qed.

End WithSqrt.

End AggregateRows.

Import AggregateRows.

Section AggregateTheorem.
Context `{Coercers} `{Sqrt}.
Import Exact.


End AggregateTheorem.

(* --------------------------------------------------------------------- *)
(** ** The theorems at concrete tables *)
(* --------------------------------------------------------------------- *)


(** C6 on an empty table that has the date and the unit only. *)
Lemma validate_missing_columns_witness :
  has_columns required_columns (mkFrame ["date"; "tpu"]%string []) = false
  ∧ (@validate_flowcam_data Demo.coercers (mkFrame ["date"; "tpu"]%string [])).1
    = mkReport false
        ["Missing required columns: "
         +:+ set_repr (missing_columns (mkFrame ["date"; "tpu"]%string []))]
        [] 0 2.
Proof.
  split; [reflexivity|].
  pose proof (@validate_missing_columns Demo.coercers
                (mkFrame ["date"; "tpu"]%string []) eq_refl) as [E _].
  rewrite E. reflexivity.
Defined.

(** C10 on three readings of one reactor. *)
Lemma clean_keeps_rows_by_required_fields_witness :
  @clean_steps Demo.coercers Demo.three_readings
  = Some (@clean_flowcam_data Demo.coercers Demo.three_readings)
  ∧ cells <$> rows (@clean_flowcam_data Demo.coercers Demo.three_readings)
    ≡ₚ cells <$> (@coerce_row Demo.coercers
                   <$> List.filter (@retained Demo.coercers)
                         (rows Demo.three_readings)).
Proof.
  assert (@clean_steps Demo.coercers Demo.three_readings
          = Some (@clean_flowcam_data Demo.coercers Demo.three_readings)) as E
    by (vm_compute; reflexivity).
  split; [exact E|].
  exact (proj1 (@clean_keeps_rows_by_required_fields Demo.coercers
                  Demo.three_readings _ E)).
Defined.



